(** * City Reporter: the report management API of [src/server/index.tsx]

    A shallow embedding of the Hono request handlers (list, get, create,
    update-status, delete, upload), of the [requireAdmin] middleware and of
    [seedDatabase], over an explicit model of the values the handlers
    manipulate (JSON values, as [c.req.json()] and the key-value store
    deliver them) and of the effects they perform (key-value operations,
    [Date.now()], the identity provider, the blob store). *)

From stdpp Require Import gmap strings list fin_maps pretty sorting.

Set Warnings "-register-all".
Local Open Scope string_scope.
Local Open Scope Z_scope.

(** ** JavaScript values *)

(** The values of the handlers are what [JSON.parse] produces.  Numbers are
    the integers ([Date.now()] readings and the like), on which the
    arithmetic of the handlers is exact; fractions are outside the model.
    An object is the list of its own properties.  [undefined] is not a JSON
    value: an expression that may be [undefined] has type [option json],
    with [None] for it. *)
Inductive json : Type :=
  | JNull
  | JBool (b : bool)
  | JNum (z : Z)
  | JStr (s : string)
  | JArr (items : list json)
  | JObj (fields : list (string * json)).

Module Js.

(** [ToBoolean]: [null], [false], [0] and the empty string are falsy. *)
Definition truthy (v : json) : bool :=
  match v with
  | JNull => false
  | JBool b => b
  | JNum z => negb (z =? 0)
  | JStr s => negb (String.eqb s "")
  | JArr _ | JObj _ => true
  end.

Definition truthy_opt (o : option json) : bool :=
  match o with
  | Some v => truthy v
  | None => false
  end.

(** Own property of an object literal or parsed object, first binding. *)
Fixpoint assoc (k : string) (fs : list (string * json)) : option json :=
  match fs with
  | [] => None
  | (k', v) :: fs' => if String.eqb k k' then Some v else assoc k fs'
  end.

(** [v.k] for a value [v] other than [null] and a property name [k] that
    is none of the built-in ones ([length], an index, a method): the
    handlers read [title], [description], [type], [location], [imageUrl],
    [status], [id], [value] and [timestamp] only.  On a primitive or an
    array such a read is [undefined]. *)
Definition prop (v : json) (k : string) : option json :=
  match v with
  | JObj fs => assoc k fs
  | _ => None
  end.

(** [a || d] where [a] may be [undefined]. *)
Definition or_else (a : option json) (d : json) : json :=
  match a with
  | Some v => if truthy v then v else d
  | None => d
  end.

(** [ToNumber] on the operands whose result is an integer.  [None] stands
    for an operand outside the model: a string, an array or an object,
    whose conversion may be [NaN] or a fraction. *)
Definition to_number (v : json) : option Z :=
  match v with
  | JNull => Some 0
  | JBool b => Some (if b then 1 else 0)
  | JNum z => Some z
  | JStr _ | JArr _ | JObj _ => None
  end.

(** Assignment of property [k] in an object under construction: an
    existing key keeps its place, a new one goes last. *)
Fixpoint set_field (k : string) (v : json) (fs : list (string * json))
  : list (string * json) :=
  match fs with
  | [] => [(k, v)]
  | (k', v') :: fs' =>
      if String.eqb k k' then (k, v) :: fs' else (k', v') :: set_field k v fs'
  end.

Fixpoint indexed {A} (mk : A → json) (i : nat) (l : list A)
  : list (string * json) :=
  match l with
  | [] => []
  | x :: l' => (pretty i, mk x) :: indexed mk (S i) l'
  end.

(** The own enumerable properties copied by the spread [{...v}]: the
    fields of an object, the indexed elements of an array, the indexed
    characters of a string, nothing for the other primitives. *)
Definition spread (v : json) : list (string * json) :=
  match v with
  | JObj fs => fs
  | JArr l => indexed (λ x, x) 0%nat l
  | JStr s => indexed (λ c, JStr (String c EmptyString)) 0%nat (String.list_ascii_of_string s)
  | JNull | JBool _ | JNum _ => []
  end.

(** [s.split(' ')]. *)
Fixpoint split_space (s : string) : list string :=
  match s with
  | EmptyString => [EmptyString]
  | String c s' =>
      if Ascii.eqb c (Ascii.ascii_of_nat 32) then EmptyString :: split_space s'
      else match split_space s' with
           | w :: ws => String c w :: ws
           | [] => [String c EmptyString]
           end
  end.

(** [Array.prototype.sort(comparefn)]: a stable sort; [x] goes before
    [y] when [comparefn(x, y) < 0], and elements that compare equal keep
    their order.  Written as the insertion of each element, from the last
    to the first, in front of the sorted rest. *)
Fixpoint sort_insert {A} (cmp : A → A → Z) (x : A) (l : list A) : list A :=
  match l with
  | [] => [x]
  | y :: l' => if 0 <? cmp x y then y :: sort_insert cmp x l' else x :: l
  end.

Definition array_sort {A} (cmp : A → A → Z) (l : list A) : list A :=
  foldr (sort_insert cmp) [] l.

(** [Number.prototype.toString()] of an integer: its decimal digits. *)
Definition number_toString (z : Z) : string := pretty z.

End Js.

(** ** The world of a handler *)

(** What a handler does to its collaborators, in order. *)
Inductive event : Type :=
  | EvKvGet (key : string)
  | EvKvSet (key : string) (value : json)
  | EvKvDel (key : string)
  | EvKvScan (prefix : string)
  | EvNow (t : Z)
  | EvGetUser (token : string)
  | EvBlobUpload (bucket name contentType : string) (size : Z)
  | EvBlobSign (bucket name : string) (ttl : Z).

(** The collaborators' answers.  Each answer may depend on how many calls
    were made before it, so that a clock may advance between two readings
    and a token may expire. *)
Record env : Type := {
  (** whether the prefix scan yields [{key, value}] rows or bare values *)
  scan_wrapped : bool;
  (** [Deno.env.get('SUPABASE_ANON_KEY')] *)
  anon_key : option string;
  (** [Date.now()] *)
  clock : nat → Z;
  (** [supabase.auth.getUser(token)]: [None] when the answer carries an
      error, else the [user] of its data, which may be [null] *)
  idp_getUser : nat → string → option json;
  (** [storage.from(bucket).upload(name, ...)]: [true] when no error *)
  blob_upload : nat → string → bool;
  (** [storage.from(bucket).createSignedUrl(name, ttl)]: the signed URL *)
  blob_sign : nat → string → option string;
}.

Record state : Type := {
  kv : gmap string json;
  trace : list event;
}.

Definition emit (e : event) (s : state) : state :=
  {| kv := kv s; trace := trace s ++ [e] |}.

Definition tick (s : state) : nat := length (trace s).

(** What a JavaScript [throw] carries in these handlers. *)
Inductive exn : Type :=
  | TypeErrorNullRead (property : string)
  | SyntaxErrorBody.

Definition exn_message (e : exn) : string :=
  match e with
  | TypeErrorNullRead p => "Cannot read properties of null (reading '" +:+ p +:+ "')"
  | SyntaxErrorBody => "Unexpected end of JSON input"
  end.

Inductive outcome (A : Type) : Type :=
  | Ok (a : A)
  | Throw (e : exn)
  | Unmodelled.
Arguments Ok {A} a.
Arguments Throw {A} e.
Arguments Unmodelled {A}.

(** Handlers run in a state monad with exceptions, over a fixed [env]. *)
Definition M (A : Type) : Type := env → state → outcome A * state.

Definition ret {A} (a : A) : M A := λ _ s, (Ok a, s).

Definition bind {A B} (m : M A) (k : A → M B) : M B :=
  λ E s,
    match m E s with
    | (Ok a, s') => k a E s'
    | (Throw e, s') => (Throw e, s')
    | (Unmodelled, s') => (Unmodelled, s')
    end.

#[global] Instance M_ret : MRet M := @ret.
#[global] Instance M_bind : MBind M := λ A B k m, bind m k.

Definition throw {A} (e : exn) : M A := λ _ s, (Throw e, s).

Definition unmodelled {A} : M A := λ _ s, (Unmodelled, s).

(** [try { m } catch (error) { h error }] *)
Definition try_catch {A} (m : M A) (h : exn → M A) : M A :=
  λ E s,
    match m E s with
    | (Throw e, s') => h e E s'
    | r => r
    end.

Fixpoint mapM {A B} (f : A → M B) (l : list A) : M (list B) :=
  match l with
  | [] => ret []
  | x :: l' => y ← f x; ys ← mapM f l'; ret (y :: ys)
  end.

(** ** Key-value store *)

Module Kv.

(** Modelled from the spec: [kv_store.tsx] is not among the sources.
    The spec gives its contract: [get(key)] is the value or absent,
    [set(key, value)] and [delete(key)] succeed, and the prefix scan
    yields the entries whose key starts with the prefix, in an order the
    layer does not fix.  The store is a finite map; the scan goes through
    it in the order of [map_to_list], and yields [{key, value}] rows or
    bare values as [scan_wrapped] says. *)
Definition get (k : string) : M (option json) :=
  λ _ s, (Ok (kv s !! k), emit (EvKvGet k) s).

(** Modelled from the spec: [set(key, value)] of the absent [kv_store.tsx];
    it binds the key to the value, over any earlier one, and succeeds. *)
Definition set (k : string) (v : json) : M unit :=
  λ _ s, (Ok tt, emit (EvKvSet k v) {| kv := <[k := v]> (kv s); trace := trace s |}).

(** Modelled from the spec: [del(key)] of the absent [kv_store.tsx]; it
    succeeds whether or not the key was there. *)
Definition del (k : string) : M unit :=
  λ _ s, (Ok tt, emit (EvKvDel k) {| kv := delete k (kv s); trace := trace s |}).

(** Modelled from the spec: the entries whose key starts with the prefix,
    which the scan of the absent [kv_store.tsx] goes through. *)
Definition entries (p : string) (m : gmap string json) : list (string * json) :=
  List.filter (λ kv, String.prefix p kv.1) (map_to_list m).

(** Modelled from the spec: the shape of a scanned entry, a [{key, value}]
    row or the bare value; the spec has the list handler cope with both. *)
Definition row (wrapped : bool) (e : string * json) : json :=
  if wrapped then JObj [("key", JStr e.1); ("value", e.2)] else e.2.

(** Modelled from the spec: the result of the prefix scan on a store. *)
Definition scan (wrapped : bool) (p : string) (m : gmap string json) : list json :=
  row wrapped <$> entries p m.

(** Modelled from the spec: [getByPrefix(prefix)] of the absent
    [kv_store.tsx]. *)
Definition getByPrefix (p : string) : M (list json) :=
  λ E s, (Ok (scan (scan_wrapped E) p (kv s)), emit (EvKvScan p) s).

End Kv.

(** ** Other collaborators *)

Definition date_now : M Z :=
  λ E s, let t := clock E (tick s) in (Ok t, emit (EvNow t) s).

Definition auth_getUser (token : string) : M (option json) :=
  λ E s, (Ok (idp_getUser E (tick s) token), emit (EvGetUser token) s).

Definition storage_upload (bucket name contentType : string) (size : Z) : M bool :=
  λ E s, (Ok (blob_upload E (tick s) name),
          emit (EvBlobUpload bucket name contentType size) s).

Definition storage_createSignedUrl (bucket name : string) (ttl : Z) : M (option string) :=
  λ E s, (Ok (blob_sign E (tick s) name), emit (EvBlobSign bucket name ttl) s).

Definition env_anon_key : M (option string) := λ E s, (Ok (anon_key E), s).

(** ** Responses *)

Record response : Type := { code : Z; body : json }.

(** [c.json(body, code)] *)
Definition c_json (b : json) (st : Z) : response := {| code := st; body := b |}.

Definition failure (msg : string) (st : Z) : response :=
  c_json (JObj [("success", JBool false); ("error", JStr msg)]) st.

(** [await c.req.json()]: [None] is a body that is not JSON. *)
Definition req_json (b : option json) : M json :=
  match b with
  | Some v => ret v
  | None => throw SyntaxErrorBody
  end.

(** [v.k] in a handler: reading a property of [null] throws. *)
Definition read (v : json) (k : string) : M (option json) :=
  match v with
  | JNull => throw (TypeErrorNullRead k)
  | _ => ret (Js.prop v k)
  end.

(** ** The handlers of [src/server/index.tsx] *)

(** The key scheme [`report:${id}`]. *)
Definition report_key (id : string) : string := "report:" +:+ id.

Definition success_with (k : string) (v : json) : response :=
  c_json (JObj [("success", JBool true); (k, v)]) 200.

(** [list.includes(v)] for a list of string literals: only a string
    equal to one of them is included. *)
Definition includes (l : list string) (v : option json) : bool :=
  match v with
  | Some (JStr s) => bool_decide (s ∈ l)
  | _ => false
  end.

(** *** Bootstrap: [seedDatabase] *)

Definition sample (id title description type location imageUrl status : string)
    (timestamp : Z) : json :=
  JObj [("id", JStr id); ("title", JStr title); ("description", JStr description);
        ("type", JStr type); ("location", JStr location); ("imageUrl", JStr imageUrl);
        ("status", JStr status); ("timestamp", JNum timestamp)].

Definition sampleReports : list json :=
  [ sample "1732611600000" "Pothole on Main Street"
      "Large pothole causing traffic issues near the intersection with Oak Avenue. Needs immediate attention."
      "infrastructure" "Main Street & Oak Avenue"
      "https://images.unsplash.com/photo-1581094794329-c8112a89af12?w=800&q=80"
      "in-progress" 1732611600000;
    sample "1732698000000" "Broken Street Light"
      "Street light has been out for a week, making the area unsafe at night."
      "safety" "Park Avenue, Block 200"
      "https://images.unsplash.com/photo-1513002749550-c59d786b8e6c?w=800&q=80"
      "pending" 1732698000000;
    sample "1732179600000" "Illegal Dumping"
      "Construction debris dumped in the park area. Environmental hazard."
      "environment" "Central Park, East Side"
      "https://images.unsplash.com/photo-1532996122724-e3c354a0b15b?w=800&q=80"
      "resolved" 1732179600000;
    sample "1732352400000" "Traffic Signal Malfunction"
      "Traffic light stuck on red in all directions causing congestion."
      "traffic" "Highway 101 & 5th Street"
      "https://images.unsplash.com/photo-1449824913935-59a10b8d2000?w=800&q=80"
      "in-progress" 1732352400000;
    sample "1732784400000" "Overflowing Trash Bins"
      "Public trash bins have not been emptied in several days."
      "public-services" "Downtown Shopping District"
      "https://images.unsplash.com/photo-1604187351574-c75ca79f5807?w=800&q=80"
      "pending" 1732784400000 ].

(** [report.id] inside the template literal; every sample has a string id. *)
Definition sample_id (r : json) : string :=
  match Js.prop r "id" with
  | Some (JStr s) => s
  | _ => "undefined"
  end.

Definition seedDatabase : M unit :=
  try_catch
    (existingReports ← Kv.getByPrefix "report:";
     if bool_decide (length existingReports = 0%nat) then
       _ ← mapM (λ report, Kv.set (report_key (sample_id report)) report) sampleReports;
       ret tt
     else ret tt)
    (λ _, ret tt).

(** *** [requireAdmin] *)

(** [c.req.header('Authorization')?.split(' ')[1]] *)
Definition bearer_token (authorization : option string) : option string :=
  h ← authorization; Js.split_space h !! 1%nat.

(** The middleware in front of the status and delete routes.  The resolved
    user is put in the request context, which no handler reads. *)
Definition requireAdmin (authorization : option string) (next : M response)
  : M response :=
  match bearer_token authorization with
  | None => ret (failure "Unauthorized - Admin access required" 401)
  | Some accessToken =>
      anon ← env_anon_key;
      if String.eqb accessToken "" || bool_decide (anon = Some accessToken) then
        ret (failure "Unauthorized - Admin access required" 401)
      else
        user ← auth_getUser accessToken;
        match user with
        | None => ret (failure "Invalid authentication token" 401)
        | Some user =>
            if Js.truthy user then next
            else ret (failure "Invalid authentication token" 401)
        end
  end.

(** *** GET /reports *)

(** [r => r.value || r] *)
Definition unwrap (r : json) : M json :=
  v ← read r "value"; ret (Js.or_else v r).

(** [a.timestamp || 0] as a number. *)
Definition timestamp_key (a : json) : option Z :=
  Js.to_number (Js.or_else (Js.prop a "timestamp") (JNum 0)).

(** [(a, b) => (b.timestamp || 0) - (a.timestamp || 0)] *)
Definition by_timestamp (a b : json) : Z :=
  default 0 (timestamp_key b) - default 0 (timestamp_key a).

(** [reportValues.sort(...)]; outside the model when a timestamp is
    neither falsy nor a number. *)
Definition sort_reports (reportValues : list json) : M (list json) :=
  if forallb (λ a, bool_decide (is_Some (timestamp_key a))) reportValues then
    ret (Js.array_sort by_timestamp reportValues)
  else unmodelled.

Definition get_reports : M response :=
  try_catch
    (reports ← Kv.getByPrefix "report:";
     if bool_decide (length reports = 0%nat) then
       ret (success_with "reports" (JArr []))
     else
       reportValues ← mapM unwrap reports;
       sortedReports ← sort_reports reportValues;
       ret (success_with "reports" (JArr sortedReports)))
    (λ error, ret (failure ("Failed to fetch reports: " +:+ exn_message error) 500)).

(** *** GET /reports/:id *)

Definition get_report (id : string) : M response :=
  try_catch
    (report ← Kv.get (report_key id);
     match report with
     | Some r =>
         if Js.truthy r then ret (success_with "report" r)
         else ret (failure "Report not found" 404)
     | None => ret (failure "Report not found" 404)
     end)
    (λ _, ret (failure "Failed to fetch report" 500)).

(** *** POST /reports *)

Definition post_report (b : option json) : M response :=
  try_catch
    (body ← req_json b;
     title ← read body "title";
     description ← read body "description";
     type ← read body "type";
     location ← read body "location";
     imageUrl ← read body "imageUrl";
     match title, description, type, location with
     | Some title, Some description, Some type, Some location =>
         if negb (Js.truthy title) || negb (Js.truthy description)
            || negb (Js.truthy type) || negb (Js.truthy location) then
           ret (failure "Missing required fields" 400)
         else
           now ← date_now;
           let id := Js.number_toString now in
           timestamp ← date_now;
           let report :=
             JObj [("id", JStr id); ("title", title); ("description", description);
                   ("type", type); ("location", location);
                   ("imageUrl", Js.or_else imageUrl JNull);
                   ("status", JStr "pending"); ("timestamp", JNum timestamp)] in
           _ ← Kv.set (report_key id) report;
           ret (success_with "report" report)
     | _, _, _, _ => ret (failure "Missing required fields" 400)
     end)
    (λ _, ret (failure "Failed to create report" 500)).

(** *** PATCH /reports/:id/status *)

Definition statuses : list string := ["pending"; "in-progress"; "resolved"].

Definition patch_status_handler (id : string) (b : option json) : M response :=
  try_catch
    (body ← req_json b;
     status ← read body "status";
     match status with
     | Some status =>
         if negb (Js.truthy status) || negb (includes statuses (Some status)) then
           ret (failure "Invalid status" 400)
         else
           report ← Kv.get (report_key id);
           match report with
           | Some r =>
               if Js.truthy r then
                 let updatedReport := JObj (Js.set_field "status" status (Js.spread r)) in
                 _ ← Kv.set (report_key id) updatedReport;
                 ret (success_with "report" updatedReport)
               else ret (failure "Report not found" 404)
           | None => ret (failure "Report not found" 404)
           end
     | None => ret (failure "Invalid status" 400)
     end)
    (λ _, ret (failure "Failed to update report status" 500)).

Definition patch_status (authorization : option string) (id : string)
    (b : option json) : M response :=
  requireAdmin authorization (patch_status_handler id b).

(** *** DELETE /reports/:id *)

Definition delete_report_handler (id : string) : M response :=
  try_catch
    (report ← Kv.get (report_key id);
     if Js.truthy_opt report then
       _ ← Kv.del (report_key id);
       ret (success_with "message" (JStr "Report deleted successfully"))
     else ret (failure "Report not found" 404))
    (λ _, ret (failure "Failed to delete report" 500)).

Definition delete_report (authorization : option string) (id : string) : M response :=
  requireAdmin authorization (delete_report_handler id).

(** *** POST /upload *)

(** A field of the parsed multipart body: a text field or a [File], of which
    the handler uses the name, the content type and the size. *)
Inductive form_value : Type :=
  | FormText (s : string)
  | FormFile (name type : string) (size : Z).

Definition allowedTypes : list string :=
  ["image/jpeg"; "image/jpg"; "image/png"; "image/webp"].

Definition bucketName : string := "make-6fd663d5-reports".

Definition post_upload (file : option form_value) : M response :=
  try_catch
    (match file with
     | None => ret (failure "No file provided" 400)
     | Some (FormText s) =>
         if String.eqb s "" then ret (failure "No file provided" 400)
         else ret (failure "Invalid file type. Only JPEG, PNG, and WebP are allowed." 400)
     | Some (FormFile name type size) =>
         if negb (includes allowedTypes (Some (JStr type))) then
           ret (failure "Invalid file type. Only JPEG, PNG, and WebP are allowed." 400)
         else if 5242880 <? size then
           ret (failure "File size exceeds 5MB limit" 400)
         else
           now ← date_now;
           let fileName := Js.number_toString now +:+ "-" +:+ name in
           uploaded ← storage_upload bucketName fileName type size;
           if negb uploaded then ret (failure "Failed to upload file" 500)
           else
             signed ← storage_createSignedUrl bucketName fileName 31536000;
             match signed with
             | None => ret (failure "Failed to create signed URL" 500)
             | Some url => ret (success_with "imageUrl" (JStr url))
             end
     end)
    (λ _, ret (failure "Failed to process upload" 500)).

(** ** Running the service *)

Definition run {A} (E : env) (m : M A) (s : state) : outcome A * state := m E s.

Inductive request : Type :=
  | GetReports
  | GetReport (id : string)
  | PostReport (body : option json)
  | PatchStatus (authorization : option string) (id : string) (body : option json)
  | DeleteReport (authorization : option string) (id : string)
  | PostUpload (file : option form_value).

Definition handle (r : request) : M response :=
  match r with
  | GetReports => get_reports
  | GetReport id => get_report id
  | PostReport b => post_report b
  | PatchStatus a id b => patch_status a id b
  | DeleteReport a id => delete_report a id
  | PostUpload f => post_upload f
  end.

(** The states the service can be in: it starts on an empty store, and
    then seeds (at each start) and serves requests in any order. *)
Inductive reachable (E : env) : state → Prop :=
  | reach_init tr : reachable E {| kv := ∅; trace := tr |}
  | reach_seed s : reachable E s → reachable E (run E seedDatabase s).2
  | reach_request s r : reachable E s → reachable E (run E (handle r) s).2.

(** ** Vocabulary of the properties *)

(** The record that [POST /reports] builds from a body it accepts. *)
Definition created_report (b : json) (now timestamp : Z) : json :=
  JObj [("id", JStr (Js.number_toString now));
        ("title", default JNull (Js.prop b "title"));
        ("description", default JNull (Js.prop b "description"));
        ("type", default JNull (Js.prop b "type"));
        ("location", default JNull (Js.prop b "location"));
        ("imageUrl", Js.or_else (Js.prop b "imageUrl") JNull);
        ("status", JStr "pending"); ("timestamp", JNum timestamp)].

(** A body passes the check of [POST /reports] when its four required
    fields are truthy. *)
Definition required_fields (b : json) : bool :=
  Js.truthy_opt (Js.prop b "title") && Js.truthy_opt (Js.prop b "description")
  && Js.truthy_opt (Js.prop b "type") && Js.truthy_opt (Js.prop b "location").

(** The pure part of [unwrap]. *)
Definition unwrap_value (r : json) : json := Js.or_else (Js.prop r "value") r.



(** [reports.filter(r => r && r.id && r.title)], the defensive filter of
    [src/components/admin-dashboard.tsx] on the list it is given. *)
Definition validReports (reports : list json) : list json :=
  List.filter
    (λ r, Js.truthy r && Js.truthy_opt (Js.prop r "id") && Js.truthy_opt (Js.prop r "title"))
    reports.


(** The [ReportType] of the client ([App.tsx]). *)
Definition report_types : list string :=
  ["infrastructure"; "safety"; "environment"; "traffic"; "public-services"; "other"].

(** The field [k] of [v] is truthy: present, and not [null], [false],
    [0] or the empty string.  The server tests its required fields in this
    way, and does not test that they are strings. *)
Definition truthy_field (v : json) (k : string) : bool := Js.truthy_opt (Js.prop v k).

Definition is_number (o : option json) : bool :=
  match o with
  | Some (JNum _) => true
  | _ => false
  end.

Definition absent (o : option json) : bool :=
  match o with
  | Some _ => false
  | None => true
  end.

(** What the server guarantees of a persisted report: the required fields
    and the type are truthy, the status is one of the three, the
    timestamp is a number, and there is no property named [value] (which
    the list handler would take for a wrapper's). *)
Definition persisted_ok (v : json) : bool :=
  truthy_field v "id" && truthy_field v "title" && truthy_field v "description"
  && truthy_field v "location" && truthy_field v "type"
  && includes statuses (Js.prop v "status")
  && is_number (Js.prop v "timestamp") && absent (Js.prop v "value").

(** The invariant as the specification words it: the type is one of the
    six categories. *)
Definition persisted_valid (v : json) : bool :=
  truthy_field v "id" && truthy_field v "title" && truthy_field v "description"
  && truthy_field v "location" && includes report_types (Js.prop v "type")
  && includes statuses (Js.prop v "status").

(** A request without a bearer token: no header, no second word in it,
    or an empty one. *)
Definition no_bearer (authorization : option string) : Prop :=
  bearer_token authorization = None ∨ bearer_token authorization = Some "".

(** A request whose bearer token is the public key of the deployment. *)
Definition anon_bearer (E : env) (authorization : option string) : Prop :=
  ∃ t, bearer_token authorization = Some t ∧ anon_key E = Some t.

(** A request that [requireAdmin] lets through in state [s]: a non-empty
    token, not the public key, that the identity provider resolves, without
    an error, to a user. *)
Definition authorized (E : env) (s : state) (authorization : option string)
    (token : string) : Prop :=
  bearer_token authorization = Some token ∧ token ≠ "" ∧
  anon_key E ≠ Some token ∧
  ∃ user, idp_getUser E (tick s) token = Some user ∧ Js.truthy user = true.

(** The invariant of the store: every value in it is a report that
    [persisted_ok] accepts. *)
Definition store_ok (m : gmap string json) : Prop :=
  map_Forall (λ _ v, persisted_ok v = true) m.

(** The answer of [requireAdmin] to a request it turns away at once. *)
Definition unauthorized : response :=
  failure "Unauthorized - Admin access required" 401.

(** A deployment to evaluate the handlers in: the clock advances by one
    millisecond at each call of a collaborator. *)
Definition demo_env : env :=
  {| scan_wrapped := false;
     anon_key := Some "public-anon-key";
     clock := λ n, 1000 + Z.of_nat n;
     idp_getUser := λ _ t,
       if String.eqb t "admin-token" then Some (JObj [("id", JStr "u1")]) else None;
     blob_upload := λ _ _, true;
     blob_sign := λ _ n, Some ("https://blob.example/" +:+ n) |}.

Definition empty_state : state := {| kv := ∅; trace := [] |}.

(** The store after the first start of the service. *)
Definition seeded_state : state := (run demo_env seedDatabase empty_state).2.

Definition pothole : json :=
  JObj [("title", JStr "Pothole"); ("description", JStr "Deep hole");
        ("type", JStr "infrastructure"); ("location", JStr "Main St")].

(** The rows of the scan that the list handler is defined on in this
    model: none is [null], and the timestamp of each unwrapped value is
    absent, falsy or a number. *)
Definition listable (E : env) (s : state) : Prop :=
  Forall (λ r, r ≠ JNull ∧ is_Some (timestamp_key (unwrap_value r)))
    (Kv.scan (scan_wrapped E) "report:" (kv s)).


(** The body of a create request that submits an empty imageUrl. *)
Definition pothole_blank_image : json :=
  JObj [("title", JStr "Pothole"); ("description", JStr "Deep hole");
        ("type", JStr "infrastructure"); ("location", JStr "Main St");
        ("imageUrl", JStr "")].

(** The body of a create request whose type is none of the categories. *)
Definition pothole_odd_type : json :=
  JObj [("title", JStr "Pothole"); ("description", JStr "Deep hole");
        ("type", JStr "banana"); ("location", JStr "Main St")].

(** ** The rest of the server: sessions and health *)

(** [v === 'literal']: strict equality with a string literal. *)
Definition is_string (o : option json) (lit : string) : bool :=
  match o with
  | Some (JStr s) => String.eqb s lit
  | _ => false
  end.

(** [a?.k]: [undefined] when [a] is [undefined] or [null]. *)
Definition chain (a : option json) (k : string) : option json :=
  v ← a; Js.prop v k.

(** [a.k] where [a] may be [undefined]: the read throws on [undefined] as
    it does on [null]. *)
Definition member (a : option json) (k : string) : M (option json) :=
  match a with
  | Some v => read v k
  | None => throw (TypeErrorNullRead k)
  end.

(** An object literal as [c.json] sends it: [JSON.stringify] leaves out the
    properties whose value is [undefined]. *)
Definition obj_of (fs : list (string * option json)) : json :=
  JObj (omap (λ f, v ← f.2; Some (f.1, v)) fs).

(** POST /auth/login.  The handler signs in through a client of its own,
    made for the request: [signIn email password] is the [data] of
    [signInWithPassword], or [None] when it reports an error. *)
Definition auth_login (signIn : json → json → option json) (b : option json)
  : M response :=
  try_catch
    (body ← req_json b;
     email ← read body "email";
     password ← read body "password";
     match email, password with
     | Some email, Some password =>
         if negb (Js.truthy email) || negb (Js.truthy password) then
           ret (failure "Email and password are required" 400)
         else
           match signIn email password with
           | None => ret (failure "Invalid email or password" 401)
           | Some data =>
               user ← read data "user";
               if negb (is_string (chain (chain user "user_metadata") "role") "admin") then
                 ret (failure "Access denied - Admin privileges required" 403)
               else
                 id ← member user "id";
                 email' ← member user "email";
                 metadata ← member user "user_metadata";
                 session ← read data "session";
                 ret (c_json
                        (obj_of
                           [("success", Some (JBool true));
                            ("user",
                             Some (obj_of [("id", id); ("email", email');
                                           ("role", chain metadata "role");
                                           ("name", chain metadata "name")]));
                            ("session",
                             Some (obj_of
                                     [("access_token", chain session "access_token");
                                      ("refresh_token", chain session "refresh_token")]))])
                        200)
           end
     | _, _ => ret (failure "Email and password are required" 400)
     end)
    (λ _, ret (failure "Login failed" 500)).

(** GET /auth/verify. *)
Definition auth_verify (authorization : option string) : M response :=
  try_catch
    (match bearer_token authorization with
     | None => ret (failure "No token provided" 401)
     | Some accessToken =>
         if String.eqb accessToken "" then ret (failure "No token provided" 401)
         else
           user ← auth_getUser accessToken;
           match user with
           | None => ret (failure "Invalid token" 401)
           | Some user =>
               if negb (Js.truthy user) then ret (failure "Invalid token" 401)
               else
               id ← read user "id";
               email ← read user "email";
               metadata ← read user "user_metadata";
               ret (c_json
                      (obj_of
                         [("success", Some (JBool true));
                          ("user",
                           Some (obj_of [("id", id); ("email", email);
                                         ("role", chain metadata "role");
                                         ("name", chain metadata "name")]))])
                      200)
           end
     end)
    (λ _, ret (failure "Token verification failed" 500)).

(** GET /health.  [buckets] is the [data] of [storage.listBuckets()], the
    names of the buckets or [None]; [toISOString] is [Date.prototype]'s. *)
Definition health (buckets : option (list string)) (toISOString : Z → string)
  : M response :=
  try_catch
    (reports ← Kv.getByPrefix "report:";
     let bucketExists := existsb (String.eqb bucketName) <$> buckets in
     now ← date_now;
     ret (c_json
            (JObj
               [("success", JBool true); ("status", JStr "healthy");
                ("timestamp", JStr (toISOString now));
                ("services",
                 JObj [("database", JStr "connected");
                       ("storage",
                        JStr (if default false bucketExists then "ready"
                              else "bucket missing"));
                       ("auth", JStr "ready");
                       ("reports_count", JNum (Z.of_nat (length reports)))])])
            200))
    (λ error,
       ret (c_json
              (JObj [("success", JBool false); ("status", JStr "unhealthy");
                     ("error", JStr (exn_message error))])
              500)).

(** ** The client: what it does with the lists it receives *)

(** [handleNewReport] of [App.tsx]: [[newReport, ...reports]]. *)
Definition handleNewReport (newReport : json) (reports : list json) : list json :=
  newReport :: reports.

(** [handleStatusUpdate] of [App.tsx], on the report that the API call
    returned ([None] for [undefined]). *)
Definition handleStatusUpdate (id : string) (updatedReport : option json)
    (reports : list json) : list json :=
  match updatedReport with
  | Some updated =>
      if negb (Js.truthy updated) || negb (Js.truthy_opt (Js.prop updated "id")) then
        reports
      else
        (λ report,
           if Js.truthy report && is_string (Js.prop report "id") id then updated
           else report) <$> reports
  | None => reports
  end.

(** The status counters of [admin-dashboard.tsx]:
    [validReports.filter(r => r.status === st).length]. *)
Definition statusCount (st : string) (reports : list json) : nat :=
  length (List.filter (λ r, is_string (Js.prop r "status") st) (validReports reports)).

Definition pendingCount : list json → nat := statusCount "pending".
Definition inProgressCount : list json → nat := statusCount "in-progress".
Definition resolvedCount : list json → nat := statusCount "resolved".

(** [day${n > 1 ? 's' : ''}] *)
Definition plural (n : Z) : string := if 1 <? n then "s" else "".

(** [formatTimestamp] of [reports-feed.tsx], on the reading [now] of
    [Date.now()].  [Math.floor(diff / k)] is the floor division: on the
    integers that a number holds exactly, with [k] at most a day of
    milliseconds, the rounding of the division cannot reach the next
    integer. *)
Definition formatTimestamp (now timestamp : Z) : string :=
  let diff := now - timestamp in
  let days := diff / (1000 * 60 * 60 * 24) in
  let hours := diff / (1000 * 60 * 60) in
  let minutes := diff / (1000 * 60) in
  if 0 <? days then pretty days +:+ " day" +:+ plural days +:+ " ago"
  else if 0 <? hours then pretty hours +:+ " hour" +:+ plural hours +:+ " ago"
  else if 0 <? minutes then pretty minutes +:+ " minute" +:+ plural minutes +:+ " ago"
  else "Just now".

(** A sign-in that knows one admin and one resident. *)
Definition demo_signIn (email password : json) : option json :=
  if is_string (Some email) "admin@city.example" && is_string (Some password) "s3cret" then
    Some (JObj [("user",
                 JObj [("id", JStr "u1"); ("email", JStr "admin@city.example");
                       ("user_metadata",
                        JObj [("role", JStr "admin"); ("name", JStr "Admin User")])]);
                ("session",
                 JObj [("access_token", JStr "admin-token");
                       ("refresh_token", JStr "refresh")])])
  else if is_string (Some email) "resident@city.example" then
    Some (JObj [("user",
                 JObj [("id", JStr "u2"); ("email", JStr "resident@city.example");
                       ("user_metadata", JObj [("role", JStr "resident")])]);
                ("session", JObj [("access_token", JStr "resident-token")])])
  else None.

(** A deployment whose clock stands still, as within one millisecond. *)
Definition frozen_env : env :=
  {| scan_wrapped := true;
     anon_key := Some "public-anon-key";
     clock := λ _, 1000;
     idp_getUser := λ _ _, None;
     blob_upload := λ _ _, false;
     blob_sign := λ _ _, None |}.

(** Every value of the store is under the key of its own id. *)
Definition keyed (m : gmap string json) : Prop :=
  map_Forall (λ k v, ∃ id, Js.prop v "id" = Some (JStr id) ∧ k = report_key id) m.





(** ** Basic facts *)

Section Monad_facts.
Context {A B : Type}.

Lemma run_ret E (a : A) s : run E (ret a) s = (Ok a, s).
Proof. reflexivity. Qed.

Lemma run_bind E (m : M A) (k : A → M B) s a s' :
  run E m s = (Ok a, s') → run E (m ≫= k) s = run E (k a) s'.
Proof. unfold run, mbind, M_bind, bind. by intros ->. Qed.

Lemma run_bind_throw E (m : M A) (k : A → M B) s e s' :
  run E m s = (Throw e, s') → run E (m ≫= k) s = (Throw e, s').
Proof. unfold run, mbind, M_bind, bind. by intros ->. Qed.

Lemma run_try_ok E (m : M A) h s a s' :
  run E m s = (Ok a, s') → run E (try_catch m h) s = (Ok a, s').
Proof. unfold run, try_catch. by intros ->. Qed.

Lemma run_try_throw E (m : M A) h s e s' :
  run E m s = (Throw e, s') → run E (try_catch m h) s = run E (h e) s'.
Proof. unfold run, try_catch. by intros ->. Qed.
End Monad_facts.

(** Unfolding of the monad's operations in the run of a handler. *)
Ltac unfold_monad := unfold run, try_catch, mbind, M_bind, bind.

Lemma read_not_null v k : v ≠ JNull → read v k = ret (Js.prop v k).
Proof. by destruct v. Qed.

Lemma prop_Some_not_null v k x : Js.prop v k = Some x → v ≠ JNull.
Proof. by destruct v. Qed.

Lemma tick_emit e s : tick (emit e s) = S (tick s).
Proof. unfold tick, emit; simpl. rewrite length_app; simpl; lia. Qed.

Lemma required_fields_not_null b : required_fields b = true → b ≠ JNull.
Proof. by destruct b. Qed.

(** What a create request with the required fields does: two clock
    readings, one write, and the new record in the answer. *)
Lemma post_report_accepts E s b :
  required_fields b = true →
  let now := clock E (tick s) in
  let timestamp := clock E (S (tick s)) in
  let report := created_report b now timestamp in
  run E (post_report (Some b)) s =
    (Ok (success_with "report" report),
     emit (EvKvSet (report_key (Js.number_toString now)) report)
       {| kv := <[report_key (Js.number_toString now) := report]> (kv s);
          trace := trace s ++ [EvNow now; EvNow timestamp] |}).
Proof.
  intros Hreq. pose proof (required_fields_not_null _ Hreq) as Hnn.
  unfold required_fields in Hreq.
  repeat (apply andb_prop in Hreq as [Hreq ?]).
  unfold post_report, created_report; unfold_monad; unfold req_json, ret.
  rewrite !read_not_null by done. unfold ret.
  destruct (Js.prop b "title") as [t|]; [|done].
  destruct (Js.prop b "description") as [d|]; [|done].
  destruct (Js.prop b "type") as [ty|]; [|done].
  destruct (Js.prop b "location") as [l|]; [|done].
  simpl in *. rewrite Hreq, H, H0, H1. simpl.
  unfold date_now, Kv.set. simpl. rewrite tick_emit.
  unfold emit; simpl. rewrite <- !app_assoc. reflexivity.
Qed.

Lemma get_report_found E s id r :
  kv s !! report_key id = Some r → Js.truthy r = true →
  run E (get_report id) s =
    (Ok (success_with "report" r), emit (EvKvGet (report_key id)) s).
Proof.
  intros Hget Htr.
  unfold get_report; unfold_monad; unfold Kv.get.
  by rewrite Hget, Htr.
Qed.

Lemma created_report_fields b now timestamp :
  required_fields b = true →
  let r := created_report b now timestamp in
  Js.prop r "title" = Js.prop b "title" ∧
  Js.prop r "description" = Js.prop b "description" ∧
  Js.prop r "type" = Js.prop b "type" ∧
  Js.prop r "location" = Js.prop b "location".
Proof.
  unfold required_fields. intros Hreq.
  repeat (apply andb_prop in Hreq as [Hreq ?]).
  destruct (Js.prop b "title") eqn:Ht; [|done].
  destruct (Js.prop b "description") eqn:Hd; [|done].
  destruct (Js.prop b "type") eqn:Hty; [|done].
  destruct (Js.prop b "location") eqn:Hl; [|done].
  simpl. by rewrite Ht, Hd, Hty, Hl.
Qed.

(** ** Create and fetch *)

(** C1, as amended.  For every create request whose title, description,
    type and location are all non-empty, the request succeeds, and fetching
    the report by the returned id yields the record that was returned: its
    title, description, type and location are the submitted ones, its
    imageUrl is the submitted one when that is non-empty and [null]
    otherwise, its status is "pending", and its id and timestamp come from
    the server's clock. *)
Theorem create_then_fetch E s b :
  required_fields b = true →
  ∃ r s1,
    run E (post_report (Some b)) s = (Ok (success_with "report" r), s1) ∧
    Js.prop r "id" = Some (JStr (Js.number_toString (clock E (tick s)))) ∧
    Js.prop r "timestamp" = Some (JNum (clock E (S (tick s)))) ∧
    (run E (get_report (Js.number_toString (clock E (tick s)))) s1).1
      = Ok (success_with "report" r) ∧
    Js.prop r "title" = Js.prop b "title" ∧
    Js.prop r "description" = Js.prop b "description" ∧
    Js.prop r "type" = Js.prop b "type" ∧
    Js.prop r "location" = Js.prop b "location" ∧
    Js.prop r "imageUrl" = Some (Js.or_else (Js.prop b "imageUrl") JNull) ∧
    (Js.truthy_opt (Js.prop b "imageUrl") = true →
     Js.prop r "imageUrl" = Js.prop b "imageUrl") ∧
    Js.prop r "status" = Some (JStr "pending").
Proof.
  intros Hreq. eexists _, _. split; [by apply post_report_accepts|].
  destruct (created_report_fields b (clock E (tick s)) (clock E (S (tick s))) Hreq)
    as (Ht & Hd & Hty & Hl).
  repeat split; try done.
  - erewrite get_report_found; [done| |done].
    simpl. apply lookup_insert_eq.
  - simpl. destruct (Js.prop b "imageUrl") as [u|]; [|done].
    simpl. by intros ->.
Qed.

Lemma create_then_fetch_witness :
  required_fields pothole = true ∧
  ∃ r s1,
    run demo_env (post_report (Some pothole)) empty_state
      = (Ok (success_with "report" r), s1) ∧
    Js.prop r "id" = Some (JStr "1000").
Proof.
  split; [reflexivity|].
  destruct (create_then_fetch demo_env empty_state pothole eq_refl)
    as (r & s1 & Hrun & Hid & _).
  exists r, s1. split; [exact Hrun | exact Hid].
Defined.

(** C1, as stated, fails: a request that submits the empty string as its
    imageUrl gets back a record whose imageUrl is [null]. *)
Lemma roundtrip_imageUrl_counterexample :
  required_fields pothole_blank_image = true ∧
  ∃ r,
    (run demo_env (get_report "1000")
       (run demo_env (post_report (Some pothole_blank_image)) empty_state).2).1
      = Ok (success_with "report" r) ∧
    Js.prop pothole_blank_image "imageUrl" = Some (JStr "") ∧
    Js.prop r "imageUrl" = Some JNull ∧
    Js.prop r "imageUrl" ≠ Js.prop pothole_blank_image "imageUrl".
Proof.
  split; [reflexivity|]. eexists. split; [vm_compute; reflexivity|].
  repeat split; discriminate.
Qed.

(** The id is the decimal string of the first clock reading and the
    timestamp is the second reading: they agree when the clock did not
    advance in between. *)
Lemma create_id_of_first_reading E s b :
  required_fields b = true →
  clock E (S (tick s)) = clock E (tick s) →
  ∃ r s1 t,
    run E (post_report (Some b)) s = (Ok (success_with "report" r), s1) ∧
    Js.prop r "timestamp" = Some (JNum t) ∧
    Js.prop r "id" = Some (JStr (Js.number_toString t)).
Proof.
  intros Hreq Hsame. eexists _, _, _.
  split; [by apply post_report_accepts|]. simpl. by rewrite Hsame.
Qed.

(** C8: the code builds the id from one reading of [Date.now()] and the
    timestamp from a second one.  When the millisecond changes between the
    two readings (1000, then 1001), the id of the new report is "1000"
    and is not the decimal string of its timestamp, 1001. *)
Theorem create_id_is_not_timestamp :
  ∃ r s1,
    run demo_env (post_report (Some pothole)) empty_state
      = (Ok (success_with "report" r), s1) ∧
    Js.prop r "id" = Some (JStr "1000") ∧
    Js.prop r "timestamp" = Some (JNum 1001) ∧
    Js.number_toString 1001 ≠ "1000".
Proof.
  eexists _, _. split; [vm_compute; reflexivity|].
  repeat split. vm_compute. discriminate.
Qed.

(** C10.  For every successful create request whose body omits imageUrl,
    or gives a falsy value for it, the persisted and returned report has an
    imageUrl field, whose value is [null]. *)
Theorem create_without_image_stores_null E s b :
  required_fields b = true →
  Js.truthy_opt (Js.prop b "imageUrl") = false →
  ∃ r s1,
    run E (post_report (Some b)) s = (Ok (success_with "report" r), s1) ∧
    kv s1 !! report_key (Js.number_toString (clock E (tick s))) = Some r ∧
    Js.prop r "imageUrl" = Some JNull.
Proof.
  intros Hreq Himg. eexists _, _. split; [by apply post_report_accepts|].
  split; [apply lookup_insert_eq|].
  simpl. destruct (Js.prop b "imageUrl") as [u|]; [|done].
  simpl in *. by rewrite Himg.
Qed.

Lemma create_without_image_stores_null_witness :
  ∃ r s1,
    run demo_env (post_report (Some pothole)) empty_state
      = (Ok (success_with "report" r), s1) ∧
    kv s1 !! "report:1000" = Some r ∧
    Js.prop r "imageUrl" = Some JNull.
Proof.
  exact (create_without_image_stores_null demo_env empty_state pothole eq_refl eq_refl).
Defined.

(** ** The admin gate *)

Lemma requireAdmin_rejects E s authorization next :
  no_bearer authorization ∨ anon_bearer E authorization →
  run E (requireAdmin authorization next) s = (Ok unauthorized, s).
Proof.
  unfold requireAdmin, run, no_bearer, anon_bearer.
  intros [[Hb|Hb]|(t & Hb & Hanon)]; rewrite Hb; try done.
  unfold mbind, M_bind, bind, env_anon_key. rewrite Hanon.
  rewrite bool_decide_true by done. by rewrite orb_true_r.
Qed.

Lemma requireAdmin_passes E s authorization token next :
  authorized E s authorization token →
  run E (requireAdmin authorization next) s = run E next (emit (EvGetUser token) s).
Proof.
  intros (Hb & Hne & Hanon & u & Hu & Htr).
  unfold requireAdmin, run. rewrite Hb.
  unfold mbind, M_bind, bind, env_anon_key, auth_getUser.
  rewrite bool_decide_false by done.
  apply String.eqb_neq in Hne. rewrite Hne. simpl. by rewrite Hu, Htr.
Qed.

(** C3.  An update-status or delete request without a bearer token, or
    whose bearer token is the public key, is answered 401 Unauthorized, and
    the state is the one before the request: the store is neither read nor
    written (no event is added to the trace, and the map is the same). *)
Theorem admin_routes_reject_unauthenticated E s authorization id b :
  no_bearer authorization ∨ anon_bearer E authorization →
  run E (patch_status authorization id b) s = (Ok unauthorized, s) ∧
  run E (delete_report authorization id) s = (Ok unauthorized, s) ∧
  code unauthorized = 401.
Proof.
  intros H. unfold patch_status, delete_report.
  by rewrite !requireAdmin_rejects.
Qed.

Lemma admin_routes_reject_unauthenticated_witness :
  run demo_env
    (patch_status None "1000" (Some (JObj [("status", JStr "resolved")])))
    (run demo_env (post_report (Some pothole)) empty_state).2
  = (Ok unauthorized, (run demo_env (post_report (Some pothole)) empty_state).2).
Proof.
  refine (proj1 (admin_routes_reject_unauthenticated demo_env _ None "1000" _ _)).
  left. left. reflexivity.
Defined.

(** ** Status updates *)

Lemma statuses_truthy st : st ∈ statuses → Js.truthy (JStr st) = true.
Proof.
  unfold statuses. rewrite !elem_of_cons, elem_of_nil.
  intros [->|[->|[->|[]]]]; reflexivity.
Qed.

Lemma assoc_set_field k k' v fs :
  Js.assoc k (Js.set_field k' v fs) =
    if String.eqb k k' then Some v else Js.assoc k fs.
Proof.
  induction fs as [|[k0 v0] fs IH]; simpl.
  - by destruct (String.eqb k k').
  - destruct (String.eqb k' k0) eqn:E0; simpl.
    + apply String.eqb_eq in E0 as ->.
      by destruct (String.eqb k k0).
    + destruct (String.eqb k k0) eqn:E1.
      * apply String.eqb_eq in E1 as ->.
        rewrite String.eqb_sym in E0. by rewrite E0.
      * apply IH.
Qed.

Lemma patch_status_handler_invalid E s id b :
  b ≠ JNull → includes statuses (Js.prop b "status") = false →
  run E (patch_status_handler id (Some b)) s = (Ok (failure "Invalid status" 400), s).
Proof.
  intros Hnn Hinc.
  unfold patch_status_handler; unfold_monad; unfold req_json, ret.
  rewrite read_not_null by done. unfold ret.
  destruct (Js.prop b "status") as [st|]; [|done].
  by rewrite Hinc, orb_true_r.
Qed.

(** A body that cannot be read ([null], or not JSON) makes the handler
    throw before it reaches the store. *)
Lemma patch_status_handler_unreadable E s id b :
  b = None ∨ b = Some JNull →
  run E (patch_status_handler id b) s =
    (Ok (failure "Failed to update report status" 500), s).
Proof. by intros [->| ->]. Qed.

Lemma patch_status_handler_updates E s id b st fs :
  Js.prop b "status" = Some (JStr st) → st ∈ statuses →
  kv s !! report_key id = Some (JObj fs) →
  let r' := JObj (Js.set_field "status" (JStr st) fs) in
  run E (patch_status_handler id (Some b)) s =
    (Ok (success_with "report" r'),
     emit (EvKvSet (report_key id) r')
       {| kv := <[report_key id := r']> (kv s);
          trace := trace s ++ [EvKvGet (report_key id)] |}).
Proof.
  intros Hst Hin Hget.
  unfold patch_status_handler; unfold_monad; unfold req_json, ret.
  rewrite read_not_null by (by eapply prop_Some_not_null). unfold ret.
  rewrite Hst, (statuses_truthy _ Hin). simpl.
  rewrite bool_decide_true by done. simpl.
  unfold Kv.get. by rewrite Hget.
Qed.

(** C4, as amended.  An authorized update-status request whose status is
    outside {pending, in-progress, resolved}, or missing, fails and leaves
    the store as it was: the answer is 400 when the body is a JSON value
    other than [null], and 500 when the body is [null] or is not JSON; in
    both cases the handler made no key-value call, so the record of that
    id, like any other, is unchanged. *)
Theorem invalid_status_rejected E s authorization token id b :
  authorized E s authorization token →
  (∀ v, b = Some v → includes statuses (Js.prop v "status") = false) →
  ∃ r s',
    run E (patch_status authorization id b) s = (Ok r, s') ∧
    (code r = 400 ↔ ∃ v, b = Some v ∧ v ≠ JNull) ∧
    (code r = 500 ↔ b = None ∨ b = Some JNull) ∧
    kv s' = kv s ∧
    kv s' !! report_key id = kv s !! report_key id ∧
    trace s' = (trace s ++ [EvGetUser token])%list.
Proof.
  intros Hauth Hinc. unfold patch_status.
  rewrite (requireAdmin_passes _ _ _ _ _ Hauth).
  destruct b as [v|].
  - assert (v = JNull ∨ v ≠ JNull) as [->|Hnn]
      by (destruct v; (by left) || (by right)).
    + rewrite patch_status_handler_unreadable by (by right).
      eexists _, _. split; [done|]. split; [|split; [|done]].
      * split; [done|]. by intros (? & [= <-] & ?).
      * split; [by right|done].
    + rewrite patch_status_handler_invalid by (done || by apply Hinc).
      eexists _, _. split; [done|]. split; [|split; [|done]].
      * split; [by eexists|done].
      * split; [done|]. by intros [|[= ->]].
  - rewrite patch_status_handler_unreadable by (by left).
    eexists _, _. split; [done|]. split; [|split; [|done]].
    + split; [done|]. by intros (? & ? & ?).
    + split; [by left|done].
Qed.

Lemma invalid_status_rejected_witness :
  ∃ r s',
    run demo_env
      (patch_status (Some "Bearer admin-token") "1000"
         (Some (JObj [("status", JStr "closed")])))
      (run demo_env (post_report (Some pothole)) empty_state).2 = (Ok r, s') ∧
    code r = 400 ∧
    kv s' = kv (run demo_env (post_report (Some pothole)) empty_state).2.
Proof.
  destruct (invalid_status_rejected demo_env
              (run demo_env (post_report (Some pothole)) empty_state).2
              (Some "Bearer admin-token") "admin-token" "1000"
              (Some (JObj [("status", JStr "closed")])))
    as (r & s' & Hrun & Hcode & _ & Hkv & _).
  - repeat split; [discriminate | discriminate |].
    eexists. split; reflexivity.
  - by intros v [= <-].
  - exists r, s'. split; [exact Hrun|]. split; [|exact Hkv].
    apply Hcode. by eexists.
Defined.

(** C4, as stated, fails: an authorized update-status request whose body
    is [null] carries no status, and is answered 500, not 400. *)
Lemma null_body_status_update_is_500 :
  authorized demo_env (run demo_env (post_report (Some pothole)) empty_state).2
    (Some "Bearer admin-token") "admin-token" ∧
  includes statuses (Js.prop JNull "status") = false ∧
  ∃ r s',
    run demo_env (patch_status (Some "Bearer admin-token") "1000" (Some JNull))
      (run demo_env (post_report (Some pothole)) empty_state).2 = (Ok r, s') ∧
    code r = 500 ∧ code r ≠ 400.
Proof.
  split; [|split; [done|]].
  - repeat split; [discriminate | discriminate |].
    eexists. split; reflexivity.
  - eexists _, _. split; [vm_compute; reflexivity|]. done.
Qed.

(** C5.  An authorized update-status request with a valid status, on a
    stored report, persists and returns a record that differs from the
    stored one in its status only: every other field (id, title,
    description, location, type, timestamp, imageUrl among them) reads as
    before, and no other key of the store changes. *)
Theorem update_changes_only_status E s authorization token id b st fs :
  authorized E s authorization token →
  Js.prop b "status" = Some (JStr st) →
  st ∈ statuses →
  kv s !! report_key id = Some (JObj fs) →
  ∃ r' s',
    run E (patch_status authorization id (Some b)) s
      = (Ok (success_with "report" r'), s') ∧
    kv s' = <[report_key id := r']> (kv s) ∧
    Js.prop r' "status" = Some (JStr st) ∧
    ∀ k, k ≠ "status" → Js.prop r' k = Js.prop (JObj fs) k.
Proof.
  intros Hauth Hst Hin Hget. unfold patch_status.
  rewrite (requireAdmin_passes _ _ _ _ _ Hauth).
  eexists _, _. split; [by eapply patch_status_handler_updates|].
  split; [done|]. simpl. split.
  - by rewrite assoc_set_field.
  - intros k Hk. rewrite assoc_set_field.
    apply String.eqb_neq in Hk. by rewrite Hk.
Qed.

Lemma update_changes_only_status_witness :
  ∃ r' s',
    run demo_env
      (patch_status (Some "Bearer admin-token") "1000"
         (Some (JObj [("status", JStr "resolved")])))
      (run demo_env (post_report (Some pothole)) empty_state).2
      = (Ok (success_with "report" r'), s') ∧
    Js.prop r' "status" = Some (JStr "resolved") ∧
    Js.prop r' "title" = Some (JStr "Pothole") ∧
    Js.prop r' "timestamp" = Some (JNum 1001).
Proof.
  edestruct (update_changes_only_status demo_env
               (run demo_env (post_report (Some pothole)) empty_state).2
               (Some "Bearer admin-token") "admin-token" "1000"
               (JObj [("status", JStr "resolved")]) "resolved")
    as (r' & s' & Hrun & _ & Hst & Hframe).
  - repeat split; [discriminate | discriminate |].
    eexists. split; reflexivity.
  - reflexivity.
  - unfold statuses. set_solver.
  - vm_compute. reflexivity.
  - exists r', s'. split; [exact Hrun|]. split; [exact Hst|].
    split; (rewrite Hframe; [reflexivity | discriminate]).
Defined.

(** ** Listing *)

Section Sorting.
Context {A : Type} (cmp : A → A → Z).

Lemma sort_insert_perm x l : Js.sort_insert cmp x l ≡ₚ x :: l.
Proof.
  induction l as [|y l IH]; simpl; [done|].
  destruct (0 <? cmp x y); [|done].
  rewrite IH. apply perm_swap.
Qed.

Lemma array_sort_perm l : Js.array_sort cmp l ≡ₚ l.
Proof.
  induction l as [|x l IH]; simpl; [done|].
  rewrite sort_insert_perm. by f_equiv.
Qed.

Lemma array_sort_length l : length (Js.array_sort cmp l) = length l.
Proof. by rewrite array_sort_perm. Qed.
End Sorting.




Lemma mapM_unwrap E s rows :
  Forall (λ r, r ≠ JNull) rows →
  run E (mapM unwrap rows) s = (Ok (unwrap_value <$> rows), s).
Proof.
  induction 1 as [|r rows Hr _ IH]; [done|].
  unfold run in *. simpl. unfold mbind, M_bind, bind, unwrap at 1.
  rewrite read_not_null by done. unfold mbind, M_bind, bind, ret.
  by rewrite IH.
Qed.

Lemma sort_reports_modelled E s l :
  Forall (λ a, is_Some (timestamp_key a)) l →
  run E (sort_reports l) s = (Ok (Js.array_sort by_timestamp l), s).
Proof.
  intros Hall. unfold sort_reports.
  replace (forallb _ l) with true; [done|].
  symmetry. apply forallb_forall. intros a Ha.
  apply bool_decide_eq_true. rewrite Forall_forall in Hall.
  apply Hall. by apply list_elem_of_In.
Qed.

(** What the list handler answers on the rows it is defined on. *)
Lemma get_reports_listable E s :
  listable E s →
  run E get_reports s =
    (Ok (success_with "reports"
           (JArr (Js.array_sort by_timestamp
                    (unwrap_value <$> Kv.scan (scan_wrapped E) "report:" (kv s))))),
     emit (EvKvScan "report:") s).
Proof.
  unfold listable. intros Hall.
  apply Forall_and in Hall as [Hnn Hts].
  unfold get_reports; unfold_monad; unfold Kv.getByPrefix.
  case_bool_decide as Hlen.
  - apply nil_length_inv in Hlen. by rewrite Hlen.
  - pose proof (mapM_unwrap E (emit (EvKvScan "report:") s) _ Hnn) as Hm.
    unfold run in Hm. rewrite Hm.
    pose proof (sort_reports_modelled E (emit (EvKvScan "report:") s)
                  (unwrap_value <$> Kv.scan (scan_wrapped E) "report:" (kv s))) as Hsort.
    unfold run in Hsort. rewrite Hsort; [done|].
    by apply Forall_fmap.
Qed.

Lemma mapM_unwrap_null E s rows :
  JNull ∈ rows →
  run E (mapM unwrap rows) s = (Throw (TypeErrorNullRead "value"), s).
Proof.
  induction rows as [|r rows IH]; intros Hin; [by apply elem_of_nil in Hin|].
  unfold run in *. simpl. unfold mbind, M_bind, bind, unwrap at 1.
  assert (r = JNull ∨ r ≠ JNull) as [->|Hnn]
    by (destruct r; (by left) || (by right)); [done|].
  rewrite read_not_null by done. unfold mbind, M_bind, bind, ret.
  apply elem_of_cons in Hin as [Heq|Hin]; [by subst|]. by rewrite IH.
Qed.

(** A [null] row makes the list handler throw: the answer is 500. *)
Lemma get_reports_null_row E s :
  JNull ∈ Kv.scan (scan_wrapped E) "report:" (kv s) →
  run E get_reports s =
    (Ok (failure ("Failed to fetch reports: "
                  +:+ exn_message (TypeErrorNullRead "value")) 500),
     emit (EvKvScan "report:") s).
Proof.
  intros Hin. unfold get_reports; unfold_monad; unfold Kv.getByPrefix.
  case_bool_decide as Hlen.
  - apply nil_length_inv in Hlen. rewrite Hlen in Hin. by apply elem_of_nil in Hin.
  - pose proof (mapM_unwrap_null E (emit (EvKvScan "report:") s) _ Hin) as Hm.
    unfold run in Hm. by rewrite Hm.
Qed.






Lemma seeded_state_listable : listable demo_env seeded_state.
Proof.
  unfold listable.
  let rows := eval vm_compute in (Kv.scan (scan_wrapped demo_env) "report:" (kv seeded_state)) in
  change (Forall (λ r, r ≠ JNull ∧ is_Some (timestamp_key (unwrap_value r))) rows).
  repeat constructor; try discriminate; by eexists.
Qed.







(** ** Upload *)



(** ** The invariant of the store *)

Lemma pretty_N_go_nonempty x s : s ≠ "" → pretty_N_go x s ≠ "".
Proof.
  revert s. induction (N.lt_wf_0 x) as [x _ IH]; intros s Hs.
  assert (x = 0 ∨ 0 < x)%N as [->|Hx] by lia.
  - by rewrite pretty_N_go_0.
  - rewrite pretty_N_go_step by done. apply IH; [by apply N.div_lt|done].
Qed.

Lemma pretty_N_nonempty (x : N) : pretty x ≠ "".
Proof.
  unfold pretty, pretty_N. case_decide as Hx; [done|].
  assert (0 < x)%N as Hpos by lia.
  rewrite pretty_N_go_step by done. by apply pretty_N_go_nonempty.
Qed.

Lemma number_toString_nonempty z : Js.number_toString z ≠ "".
Proof.
  unfold Js.number_toString, pretty, pretty_Z. destruct z as [|p|p]; [done| |done].
  apply (pretty_N_nonempty (N.pos p)).
Qed.

Lemma persisted_ok_spec v :
  persisted_ok v = true ↔
    truthy_field v "id" = true ∧ truthy_field v "title" = true ∧
    truthy_field v "description" = true ∧ truthy_field v "location" = true ∧
    truthy_field v "type" = true ∧ includes statuses (Js.prop v "status") = true ∧
    is_number (Js.prop v "timestamp") = true ∧ absent (Js.prop v "value") = true.
Proof. unfold persisted_ok. rewrite !andb_true_iff. tauto. Qed.

Lemma created_report_ok b now timestamp :
  required_fields b = true → persisted_ok (created_report b now timestamp) = true.
Proof.
  intros Hreq. apply persisted_ok_spec. unfold truthy_field.
  destruct (created_report_fields b now timestamp Hreq) as (-> & -> & -> & ->).
  unfold required_fields in Hreq. rewrite !andb_true_iff in Hreq.
  destruct Hreq as [[[Ht Hd] Hty] Hl].
  repeat (split; [done|]). simpl.
  pose proof (number_toString_nonempty now) as Hne.
  apply String.eqb_neq in Hne. by rewrite Hne.
Qed.

Lemma persisted_ok_object v : persisted_ok v = true → ∃ fs, v = JObj fs.
Proof. destruct v; try done. by eexists. Qed.

Lemma updated_report_ok fs st :
  persisted_ok (JObj fs) = true →
  includes statuses (Some st) = true →
  persisted_ok (JObj (Js.set_field "status" st fs)) = true.
Proof.
  intros Hok Hst.
  apply persisted_ok_spec in Hok as (Hid & Ht & Hd & Hl & Hty & _ & Hnum & Hval).
  apply persisted_ok_spec. unfold truthy_field in *. simpl in *.
  rewrite !assoc_set_field. simpl. by split_and!.
Qed.

Lemma sampleReports_ok : Forall (λ r, persisted_ok r = true) sampleReports.
Proof. repeat constructor. Qed.

Lemma store_ok_insert k v m :
  persisted_ok v = true → store_ok m → store_ok (<[k := v]> m).
Proof. intros. by apply map_Forall_insert_2. Qed.

Lemma store_ok_delete k m : store_ok m → store_ok (delete k m).
Proof. intros. by apply map_Forall_delete. Qed.

Lemma seed_sets_ok E s l :
  Forall (λ r, persisted_ok r = true) l → store_ok (kv s) →
  store_ok (kv (run E (mapM (λ report, Kv.set (report_key (sample_id report)) report) l) s).2).
Proof.
  intros Hl. revert s. induction Hl as [|r l Hr _ IH]; intros s Hs; [done|].
  unfold run in *. simpl. unfold mbind, M_bind, bind, Kv.set at 1.
  match goal with
  | |- context [mapM ?f l E ?s1] =>
      specialize (IH s1); destruct (mapM f l E s1) as [[ys| |] s2]; simpl in *
  end; apply IH; by apply store_ok_insert.
Qed.

Lemma seedDatabase_ok E s :
  store_ok (kv s) → store_ok (kv (run E seedDatabase s).2).
Proof.
  intros Hs. unfold seedDatabase; unfold_monad; unfold Kv.getByPrefix.
  case_bool_decide; [|done].
  pose proof (seed_sets_ok E (emit (EvKvScan "report:") s) _ sampleReports_ok Hs) as H1.
  unfold run in H1.
  destruct (mapM _ sampleReports E _) as [[ys| |] s2]; done.
Qed.

Lemma get_reports_kv E s : kv (run E get_reports s).2 = kv s.
Proof.
  unfold get_reports; unfold_monad; unfold Kv.getByPrefix.
  case_bool_decide; [done|].
  assert (∀ l s0, kv (mapM unwrap l E s0).2 = kv s0) as Hmap.
  { induction l as [|r l IH]; intros s0; [done|].
    simpl. unfold mbind, M_bind, bind, unwrap at 1, read.
    destruct r; simpl; try done;
      specialize (IH s0); destruct (mapM unwrap l E s0) as [[ys| |] s2]; done. }
  specialize (Hmap (Kv.scan (scan_wrapped E) "report:" (kv s)) (emit (EvKvScan "report:") s)).
  destruct (mapM unwrap _ E _) as [[ys| |] s2]; simpl in *; try done.
  unfold sort_reports. by destruct (forallb _ ys).
Qed.

Lemma get_report_kv E s id : kv (run E (get_report id) s).2 = kv s.
Proof.
  unfold get_report; unfold_monad; unfold Kv.get.
  destruct (kv s !! report_key id) as [r|]; [|done]. by destruct (Js.truthy r).
Qed.

Lemma post_upload_kv E s f : kv (run E (post_upload f) s).2 = kv s.
Proof.
  unfold post_upload, run, try_catch.
  destruct f as [[t|name type size]|]; [by destruct (String.eqb t "")| |done].
  destruct (negb _); [done|]. destruct (5242880 <? size); [done|].
  unfold mbind, M_bind, bind, date_now, storage_upload, storage_createSignedUrl.
  simpl. destruct (blob_upload E _ _); simpl; [|done].
  by destruct (blob_sign E _ _).
Qed.

Lemma post_report_ok E s b :
  store_ok (kv s) → store_ok (kv (run E (post_report b) s).2).
Proof.
  intros Hs. destruct b as [b|]; [|done].
  destruct (required_fields b) eqn:Hreq.
  - rewrite post_report_accepts by done. simpl.
    apply store_ok_insert; [by apply created_report_ok|done].
  - replace (kv (run E (post_report (Some b)) s).2) with (kv s); [done|].
    unfold post_report; unfold_monad; unfold req_json, ret.
    assert (b = JNull ∨ b ≠ JNull) as [->|Hnn]
      by (destruct b; (by left) || (by right)); [done|].
    rewrite !read_not_null by done. unfold ret.
    unfold required_fields in Hreq.
    destruct (Js.prop b "title") as [t|]; [|done].
    destruct (Js.prop b "description") as [d|]; [|done].
    destruct (Js.prop b "type") as [ty|]; [|done].
    destruct (Js.prop b "location") as [l|]; [|done].
    simpl in Hreq.
    destruct (Js.truthy t), (Js.truthy d), (Js.truthy ty), (Js.truthy l); done.
Qed.

Lemma requireAdmin_kv E s authorization next (P : gmap string json → Prop) :
  P (kv s) →
  (∀ s0, kv s0 = kv s → P (kv (run E next s0).2)) →
  P (kv (run E (requireAdmin authorization next) s).2).
Proof.
  intros Hs Hnext. unfold requireAdmin, run.
  destruct (bearer_token authorization) as [t|]; [|done].
  unfold mbind, M_bind, bind, env_anon_key, auth_getUser.
  destruct (String.eqb t "" || bool_decide (anon_key E = Some t)); [done|].
  destruct (idp_getUser E (tick s) t) as [u|]; [|done].
  destruct (Js.truthy u); [|done].
  by apply Hnext.
Qed.

Lemma patch_status_handler_ok E s id b :
  store_ok (kv s) → store_ok (kv (run E (patch_status_handler id b) s).2).
Proof.
  intros Hs. destruct b as [b|]; [|done].
  unfold patch_status_handler; unfold_monad; unfold req_json, ret.
  assert (b = JNull ∨ b ≠ JNull) as [->|Hnn]
    by (destruct b; (by left) || (by right)); [done|].
  rewrite read_not_null by done. unfold ret.
  destruct (Js.prop b "status") as [st|]; [|done].
  destruct (includes statuses (Some st)) eqn:Hinc; [|by rewrite orb_true_r].
  destruct (Js.truthy st); [|done]. simpl. unfold Kv.get.
  destruct (kv s !! report_key id) as [r|] eqn:Hget; [|done].
  destruct (Js.truthy r); [|done]. simpl.
  pose proof (Hs _ _ Hget) as Hr. simpl in Hr.
  destruct (persisted_ok_object _ Hr) as [fs ->]. simpl.
  apply store_ok_insert; [by apply updated_report_ok|done].
Qed.

Lemma delete_report_handler_ok E s id :
  store_ok (kv s) → store_ok (kv (run E (delete_report_handler id) s).2).
Proof.
  intros Hs. unfold delete_report_handler; unfold_monad; unfold Kv.get.
  destruct (Js.truthy_opt (kv s !! report_key id)); [|done].
  simpl. by apply store_ok_delete.
Qed.

Lemma handle_ok E s r :
  store_ok (kv s) → store_ok (kv (run E (handle r) s).2).
Proof.
  intros Hs. destruct r as [|id|b|a id b|a id|f]; simpl.
  - by rewrite get_reports_kv.
  - by rewrite get_report_kv.
  - by apply post_report_ok.
  - unfold patch_status. apply requireAdmin_kv; [done|].
    intros s0 Hs0. apply patch_status_handler_ok. by rewrite Hs0.
  - unfold delete_report. apply requireAdmin_kv; [done|].
    intros s0 Hs0. apply delete_report_handler_ok. by rewrite Hs0.
  - by rewrite post_upload_kv.
Qed.

Lemma reachable_store_ok E s : reachable E s → store_ok (kv s).
Proof.
  induction 1 as [tr|s Hs IH|s r Hs IH].
  - apply map_Forall_empty.
  - by apply seedDatabase_ok.
  - by apply handle_ok.
Qed.

(** The list handler is defined on every state the service can reach,
    whichever shape the scan has. *)
Lemma reachable_listable E s : reachable E s → listable E s.
Proof.
  intros Hreach. pose proof (reachable_store_ok E s Hreach) as Hok.
  unfold listable, Kv.scan, Kv.entries.
  apply Forall_fmap, Forall_forall. intros [k v] Hin.
  apply list_elem_of_In, filter_In in Hin as [Hin _].
  apply list_elem_of_In, elem_of_map_to_list in Hin.
  specialize (Hok k v Hin). simpl in Hok.
  destruct (persisted_ok_object _ Hok) as [fs ->].
  apply persisted_ok_spec in Hok as (_ & _ & _ & _ & _ & _ & Hnum & Hval).
  simpl in Hnum, Hval.
  assert (is_Some (timestamp_key (JObj fs))) as Hkey.
  { unfold timestamp_key. simpl.
    destruct (Js.assoc "timestamp" fs) as [[| |z| | |]|]; try done.
    simpl. by destruct (negb (z =? 0)). }
  unfold Kv.row, unwrap_value. simpl.
  destruct (scan_wrapped E); simpl; [done|].
  split; [done|]. by destruct (Js.assoc "value" fs).
Qed.

(** ** Further properties of the handlers *)

(** X1.  Fetching an id under which nothing is stored is answered 404; the
    handler made one lookup and the store is as it was. *)
Theorem get_report_missing E s id :
  kv s !! report_key id = None →
  run E (get_report id) s =
    (Ok (failure "Report not found" 404), emit (EvKvGet (report_key id)) s) ∧
  kv (emit (EvKvGet (report_key id)) s) = kv s.
Proof.
  intros Hget. split; [|done].
  unfold get_report; unfold_monad; unfold Kv.get. by rewrite Hget.
Qed.

Lemma get_report_missing_witness :
  (run demo_env (get_report "42") seeded_state).1
    = Ok (failure "Report not found" 404).
Proof.
  assert (kv seeded_state !! report_key "42" = None) as Hnone
    by (vm_compute; reflexivity).
  destruct (get_report_missing demo_env seeded_state "42" Hnone) as [Hrun _].
  by rewrite Hrun.
Defined.

Lemma auth_verify_kv E s authorization :
  kv (run E (auth_verify authorization) s).2 = kv s.
Proof.
  unfold auth_verify; unfold_monad.
  destruct (bearer_token authorization) as [t|]; [|done].
  destruct (String.eqb t ""); [done|].
  unfold auth_getUser. destruct (idp_getUser E (tick s) t) as [u|]; [|done].
  destruct (negb (Js.truthy u)); [done|]. by destruct u.
Qed.

Lemma health_kv E s buckets iso : kv (run E (health buckets iso) s).2 = kv s.
Proof. done. Qed.

Lemma auth_login_state E s signIn b : (run E (auth_login signIn b) s).2 = s.
Proof.
  unfold auth_login; unfold_monad; unfold req_json.
  destruct b as [b|]; [|done].
  assert (b = JNull ∨ b ≠ JNull) as [->|Hnn]
    by (destruct b; (by left) || (by right)); [done|].
  unfold ret. rewrite !read_not_null by done. unfold ret.
  destruct (Js.prop b "email") as [e|]; [|done].
  destruct (Js.prop b "password") as [p|]; [|done].
  destruct (negb (Js.truthy e) || negb (Js.truthy p)); [done|].
  destruct (signIn e p) as [data|]; [|done].
  destruct data; try done.
  simpl. destruct (negb _); [done|].
  unfold member.
  destruct (Js.assoc "user" fields) as [u|]; [|done].
  destruct u; try done.
Qed.

(** X2.  The routes that only read never change the store, whatever they
    are sent and whatever they answer: list, fetch, upload, token
    verification and health leave the map as it is, and login leaves the
    whole state as it is. *)
Theorem read_routes_never_write E s id file authorization buckets iso signIn b :
  kv (run E get_reports s).2 = kv s ∧
  kv (run E (get_report id) s).2 = kv s ∧
  kv (run E (post_upload file) s).2 = kv s ∧
  kv (run E (auth_verify authorization) s).2 = kv s ∧
  kv (run E (health buckets iso) s).2 = kv s ∧
  (run E (auth_login signIn b) s).2 = s.
Proof.
  split_and!.
  - apply get_reports_kv.
  - apply get_report_kv.
  - apply post_upload_kv.
  - apply auth_verify_kv.
  - apply health_kv.
  - apply auth_login_state.
Qed.

Lemma post_report_refuses E s b :
  b ≠ JNull → required_fields b = false →
  run E (post_report (Some b)) s = (Ok (failure "Missing required fields" 400), s).
Proof.
  intros Hnn Hreq.
  unfold post_report; unfold_monad; unfold req_json, ret.
  rewrite !read_not_null by done. unfold ret.
  unfold required_fields in Hreq.
  destruct (Js.prop b "title") as [t|]; [|done].
  destruct (Js.prop b "description") as [d|]; [|done].
  destruct (Js.prop b "type") as [ty|]; [|done].
  destruct (Js.prop b "location") as [l|]; [|done].
  simpl in Hreq.
  destruct (Js.truthy t), (Js.truthy d), (Js.truthy ty), (Js.truthy l); done.
Qed.

(** X3.  A create request that lacks one of title, description, type and
    location (the field is absent or falsy) is answered 400, and one whose
    body is [null] or not JSON is answered 500; in both cases the state is
    the one before the request: the clock was not read and nothing was
    stored. *)
Theorem create_refused_changes_nothing E s b :
  (∀ v, b = Some v → required_fields v = false) →
  ∃ r,
    run E (post_report b) s = (Ok r, s) ∧
    (code r = 400 ∨ code r = 500) ∧
    (code r = 400 ↔ ∃ v, b = Some v ∧ v ≠ JNull).
Proof.
  intros Hreq. destruct b as [v|].
  - assert (v = JNull ∨ v ≠ JNull) as [->|Hnn]
      by (destruct v; (by left) || (by right)).
    + eexists. split; [done|]. split; [by right|].
      split; [done|]. by intros (? & [= <-] & ?).
    + eexists. split; [by apply post_report_refuses; [|apply Hreq]|].
      split; [by left|]. split; [by eexists|done].
  - eexists. split; [done|]. split; [by right|].
    split; [done|]. by intros (? & ? & ?).
Qed.

Lemma create_refused_changes_nothing_witness :
  ∃ r,
    run demo_env
      (post_report (Some (JObj [("title", JStr "Pothole"); ("description", JStr "")])))
      seeded_state = (Ok r, seeded_state) ∧
    code r = 400.
Proof.
  destruct (create_refused_changes_nothing demo_env seeded_state
              (Some (JObj [("title", JStr "Pothole"); ("description", JStr "")])))
    as (r & Hrun & _ & Hcode).
  - by intros v [= <-].
  - exists r. split; [exact Hrun|]. apply Hcode. by eexists.
Defined.

Lemma report_key_inj id1 id2 : report_key id1 = report_key id2 → id1 = id2.
Proof. unfold report_key. intros H. cbn in H. by injection H. Qed.

Lemma tick_post_report E s b :
  required_fields b = true →
  tick (run E (post_report (Some b)) s).2 = (3 + tick s)%nat.
Proof.
  intros Hreq. rewrite post_report_accepts by done.
  unfold tick, emit. simpl. rewrite !length_app. simpl. lia.
Qed.

(** X4.  Two create requests served one after the other at different
    clock readings get different ids, and both reports are in the store
    afterwards, each under its own id. *)
Theorem creates_at_distinct_times_both_kept E s b1 b2 :
  required_fields b1 = true → required_fields b2 = true →
  clock E (tick s) ≠ clock E (3 + tick s)%nat →
  let s2 := (run E (post_report (Some b2)) (run E (post_report (Some b1)) s).2).2 in
  kv s2 !! report_key (Js.number_toString (clock E (tick s)))
    = Some (created_report b1 (clock E (tick s)) (clock E (S (tick s)))) ∧
  kv s2 !! report_key (Js.number_toString (clock E (3 + tick s)%nat))
    = Some (created_report b2 (clock E (3 + tick s)%nat) (clock E (4 + tick s)%nat)).
Proof.
  intros H1 H2 Hne.
  pose proof (tick_post_report E s b1 H1) as Htick.
  rewrite (post_report_accepts E _ b2 H2). rewrite Htick.
  simpl. split.
  - rewrite lookup_insert_ne.
    + rewrite post_report_accepts by done. simpl. apply lookup_insert_eq.
    + intros Heq. apply report_key_inj in Heq.
      unfold Js.number_toString in Heq. by apply pretty_Z_inj in Heq.
  - apply lookup_insert_eq.
Qed.

Lemma creates_at_distinct_times_both_kept_witness :
  let s2 := (run demo_env (post_report (Some pothole_odd_type))
               (run demo_env (post_report (Some pothole)) empty_state).2).2 in
  kv s2 !! "report:1000" = Some (created_report pothole 1000 1001) ∧
  kv s2 !! "report:1003" = Some (created_report pothole_odd_type 1003 1004).
Proof.
  apply (creates_at_distinct_times_both_kept demo_env empty_state pothole pothole_odd_type);
    [reflexivity | reflexivity | discriminate].
Defined.

(** X5.  Two create requests whose ids are read in the same millisecond
    collide: the second report is stored under the id of the first, which
    is lost. *)
Theorem creates_in_same_millisecond_collide E s b1 b2 :
  required_fields b1 = true → required_fields b2 = true →
  clock E (tick s) = clock E (3 + tick s)%nat →
  let id := Js.number_toString (clock E (tick s)) in
  let s1 := (run E (post_report (Some b1)) s).2 in
  let s2 := (run E (post_report (Some b2)) s1).2 in
  kv s1 !! report_key id = Some (created_report b1 (clock E (tick s)) (clock E (S (tick s)))) ∧
  kv s2 !! report_key id
    = Some (created_report b2 (clock E (tick s)) (clock E (4 + tick s)%nat)) ∧
  kv s2 = <[report_key id :=
              created_report b2 (clock E (tick s)) (clock E (4 + tick s)%nat)]> (kv s).
Proof.
  intros H1 H2 Heq. cbv zeta.
  pose proof (tick_post_report E s b1 H1) as Htick.
  rewrite (post_report_accepts E _ b2 H2). rewrite Htick.
  rewrite post_report_accepts by done. rewrite <- Heq. simpl.
  split; [apply lookup_insert_eq|]. split; [apply lookup_insert_eq|].
  apply insert_insert_eq.
Qed.

Lemma creates_in_same_millisecond_collide_witness :
  kv (run frozen_env (post_report (Some pothole_odd_type))
        (run frozen_env (post_report (Some pothole)) empty_state).2).2
  = <["report:1000" := created_report pothole_odd_type 1000 1000]> ∅.
Proof.
  exact (proj2 (proj2 (creates_in_same_millisecond_collide frozen_env empty_state
                         pothole pothole_odd_type eq_refl eq_refl eq_refl))).
Defined.

Lemma patch_status_handler_missing E s id b st :
  Js.prop b "status" = Some (JStr st) → st ∈ statuses →
  Js.truthy_opt (kv s !! report_key id) = false →
  run E (patch_status_handler id (Some b)) s =
    (Ok (failure "Report not found" 404), emit (EvKvGet (report_key id)) s).
Proof.
  intros Hst Hin Hget.
  unfold patch_status_handler; unfold_monad; unfold req_json, ret.
  rewrite read_not_null by (by eapply prop_Some_not_null). unfold ret.
  rewrite Hst, (statuses_truthy _ Hin). simpl.
  rewrite bool_decide_true by done. simpl. unfold Kv.get.
  destruct (kv s !! report_key id) as [r|]; [|done].
  simpl in Hget. by rewrite Hget.
Qed.

(** X6.  An authorized update-status request with a valid status, for an
    id under which no report is stored, is answered 404 and creates
    nothing: the store is as it was. *)
Theorem update_missing_report_creates_nothing E s authorization token id b st :
  authorized E s authorization token →
  Js.prop b "status" = Some (JStr st) → st ∈ statuses →
  kv s !! report_key id = None →
  ∃ s',
    run E (patch_status authorization id (Some b)) s
      = (Ok (failure "Report not found" 404), s') ∧
    kv s' = kv s.
Proof.
  intros Hauth Hst Hin Hget. unfold patch_status.
  rewrite (requireAdmin_passes _ _ _ _ _ Hauth).
  rewrite (patch_status_handler_missing _ _ _ _ st) by (done || (simpl; by rewrite Hget)).
  by eexists.
Qed.

Lemma update_missing_report_creates_nothing_witness :
  ∃ s',
    run demo_env
      (patch_status (Some "Bearer admin-token") "42"
         (Some (JObj [("status", JStr "resolved")]))) seeded_state
      = (Ok (failure "Report not found" 404), s') ∧
    kv s' = kv seeded_state.
Proof.
  apply (update_missing_report_creates_nothing demo_env seeded_state
           (Some "Bearer admin-token") "admin-token" "42" _ "resolved").
  - repeat split; [discriminate | discriminate |].
    eexists. split; reflexivity.
  - reflexivity.
  - unfold statuses. set_solver.
  - vm_compute. reflexivity.
Defined.

Lemma delete_report_handler_found E s id r :
  kv s !! report_key id = Some r → Js.truthy r = true →
  run E (delete_report_handler id) s =
    (Ok (success_with "message" (JStr "Report deleted successfully")),
     emit (EvKvDel (report_key id))
       {| kv := delete (report_key id) (kv s);
          trace := (trace s ++ [EvKvGet (report_key id)])%list |}).
Proof.
  intros Hget Htr.
  unfold delete_report_handler; unfold_monad; unfold Kv.get.
  rewrite Hget. simpl. by rewrite Htr.
Qed.

Lemma delete_report_handler_missing E s id :
  Js.truthy_opt (kv s !! report_key id) = false →
  run E (delete_report_handler id) s =
    (Ok (failure "Report not found" 404), emit (EvKvGet (report_key id)) s).
Proof.
  intros Hget.
  unfold delete_report_handler; unfold_monad; unfold Kv.get. by rewrite Hget.
Qed.

(** X7.  An authorized delete of a stored report is answered 200 and
    removes that key and no other; fetching the id afterwards is answered
    404. *)
Theorem delete_removes_the_report E s authorization token id r :
  authorized E s authorization token →
  kv s !! report_key id = Some r → Js.truthy r = true →
  ∃ s',
    run E (delete_report authorization id) s
      = (Ok (success_with "message" (JStr "Report deleted successfully")), s') ∧
    kv s' = delete (report_key id) (kv s) ∧
    (∀ k, k ≠ report_key id → kv s' !! k = kv s !! k) ∧
    (run E (get_report id) s').1 = Ok (failure "Report not found" 404).
Proof.
  intros Hauth Hget Htr. unfold delete_report.
  rewrite (requireAdmin_passes _ _ _ _ _ Hauth).
  rewrite (delete_report_handler_found _ _ _ r) by done.
  eexists. split; [done|]. simpl. split; [done|]. split.
  - intros k Hk. by rewrite lookup_delete_ne.
  - unfold get_report; unfold_monad; unfold Kv.get. simpl.
    by rewrite lookup_delete_eq.
Qed.

Lemma delete_removes_the_report_witness :
  ∃ s',
    run demo_env (delete_report (Some "Bearer admin-token") "1732611600000") seeded_state
      = (Ok (success_with "message" (JStr "Report deleted successfully")), s') ∧
    kv s' !! "report:1732611600000" = None.
Proof.
  edestruct (delete_removes_the_report demo_env seeded_state
               (Some "Bearer admin-token") "admin-token" "1732611600000")
    as (s' & Hrun & Hkv & _).
  - repeat split; [discriminate | discriminate |].
    eexists. split; reflexivity.
  - vm_compute. reflexivity.
  - reflexivity.
  - exists s'. split; [exact Hrun|]. rewrite Hkv. apply lookup_delete_eq.
Defined.

(** X8.  An authorized delete for an id under which nothing is stored is
    answered 404 and changes no key of the store. *)
Theorem delete_missing_report E s authorization token id :
  authorized E s authorization token →
  kv s !! report_key id = None →
  ∃ s',
    run E (delete_report authorization id) s
      = (Ok (failure "Report not found" 404), s') ∧
    kv s' = kv s.
Proof.
  intros Hauth Hget. unfold delete_report.
  rewrite (requireAdmin_passes _ _ _ _ _ Hauth).
  rewrite delete_report_handler_missing by (simpl; by rewrite Hget).
  by eexists.
Qed.

Lemma delete_missing_report_witness :
  ∃ s',
    run demo_env (delete_report (Some "Bearer admin-token") "42") seeded_state
      = (Ok (failure "Report not found" 404), s') ∧
    kv s' = kv seeded_state.
Proof.
  apply (delete_missing_report demo_env seeded_state
           (Some "Bearer admin-token") "admin-token" "42").
  - repeat split; [discriminate | discriminate |].
    eexists. split; reflexivity.
  - vm_compute. reflexivity.
Defined.

(** X9.  A request to an admin route whose bearer token is not empty and
    is not the public key, but for which the identity provider answers with
    an error or without a user, is answered 401 "Invalid authentication
    token": the provider was asked once and the route's handler did not
    run, so the store was neither read nor written. *)
Theorem admin_routes_reject_unresolved_token E s authorization token id b :
  bearer_token authorization = Some token → token ≠ "" →
  anon_key E ≠ Some token →
  Js.truthy_opt (idp_getUser E (tick s) token) = false →
  run E (patch_status authorization id b) s
    = (Ok (failure "Invalid authentication token" 401), emit (EvGetUser token) s) ∧
  run E (delete_report authorization id) s
    = (Ok (failure "Invalid authentication token" 401), emit (EvGetUser token) s).
Proof.
  intros Hb Hne Hanon Hidp.
  assert (∀ next, run E (requireAdmin authorization next) s
            = (Ok (failure "Invalid authentication token" 401),
               emit (EvGetUser token) s)) as Hreq.
  { intros next. unfold requireAdmin, run. rewrite Hb.
    unfold mbind, M_bind, bind, env_anon_key, auth_getUser.
    rewrite bool_decide_false by done.
    apply String.eqb_neq in Hne. rewrite Hne. simpl.
    destruct (idp_getUser E (tick s) token) as [u|]; [|done].
    simpl in Hidp. by rewrite Hidp. }
  unfold patch_status, delete_report. by rewrite !Hreq.
Qed.

Lemma admin_routes_reject_unresolved_token_witness :
  run demo_env (delete_report (Some "Bearer stale-token") "1732611600000") seeded_state
  = (Ok (failure "Invalid authentication token" 401),
     emit (EvGetUser "stale-token") seeded_state).
Proof.
  refine (proj2 (admin_routes_reject_unresolved_token demo_env seeded_state
                   (Some "Bearer stale-token") "stale-token" "1732611600000" None
                   _ _ _ _));
    [reflexivity | discriminate | discriminate | reflexivity].
Defined.

(** X10.  For a file that passes the checks of the upload route, the
    answer follows the blob store: 500 when the upload fails, and then no
    signed URL is asked for; 500 when the signing fails; and otherwise 200
    with the URL that the blob store signed. *)
Theorem upload_follows_blob_store E s name type size :
  type ∈ allowedTypes → size ≤ 5242880 →
  let fileName := Js.number_toString (clock E (tick s)) +:+ "-" +:+ name in
  let s' := (run E (post_upload (Some (FormFile name type size))) s).2 in
  (run E (post_upload (Some (FormFile name type size))) s).1 =
    Ok (if blob_upload E (S (tick s)) fileName then
          match blob_sign E (S (S (tick s))) fileName with
          | Some url => success_with "imageUrl" (JStr url)
          | None => failure "Failed to create signed URL" 500
          end
        else failure "Failed to upload file" 500) ∧
  (blob_upload E (S (tick s)) fileName = false →
   trace s' = (trace s ++ [EvNow (clock E (tick s));
                           EvBlobUpload bucketName fileName type size])%list).
Proof.
  intros Hty Hsz. cbv zeta.
  unfold post_upload, run, try_catch, includes.
  rewrite bool_decide_true by done. simpl.
  replace (5242880 <? size) with false by (symmetry; apply Z.ltb_ge; lia).
  unfold mbind, M_bind, bind, date_now, storage_upload, storage_createSignedUrl.
  simpl. rewrite !tick_emit.
  destruct (blob_upload E _ _); simpl.
  - split; [|done]. rewrite !tick_emit. by destruct (blob_sign E _ _).
  - split; [done|]. intros _. by rewrite <- app_assoc.
Qed.

Lemma upload_follows_blob_store_witness :
  (run demo_env (post_upload (Some (FormFile "hole.png" "image/png" 1024))) empty_state).1
  = Ok (success_with "imageUrl" (JStr "https://blob.example/1000-hole.png")).
Proof.
  refine (proj1 (upload_follows_blob_store demo_env empty_state "hole.png" "image/png" 1024
                   _ _)).
  - unfold allowedTypes. set_solver.
  - lia.
Defined.

(** X11.  An upload request without a file part, or whose file field is a
    text value, is answered 400 in the state of the request: nothing is
    sent to the blob store. *)
Theorem upload_without_file_rejected E s file :
  (∀ name type size, file ≠ Some (FormFile name type size)) →
  ∃ r, run E (post_upload file) s = (Ok r, s) ∧ code r = 400.
Proof.
  intros Hfile. destruct file as [[t|name type size]|].
  - unfold post_upload, run, try_catch. destruct (String.eqb t ""); by eexists.
  - by destruct (Hfile name type size).
  - by eexists.
Qed.

Lemma upload_without_file_rejected_witness :
  ∃ r, run demo_env (post_upload (Some (FormText "hole.png"))) empty_state
         = (Ok r, empty_state) ∧ code r = 400.
Proof.
  apply (upload_without_file_rejected demo_env empty_state (Some (FormText "hole.png"))).
  discriminate.
Defined.

(** *** Seeding *)

Lemma seed_sets_run E s l :
  ∃ ys s',
    run E (mapM (λ report, Kv.set (report_key (sample_id report)) report) l) s
      = (Ok ys, s') ∧
    kv s' = foldl (λ m r, <[report_key (sample_id r) := r]> m) (kv s) l.
Proof.
  revert s. induction l as [|r l IH]; intros s; [by eexists _, _|].
  unfold run in *. simpl. unfold mbind, M_bind, bind, Kv.set at 1.
  match goal with
  | |- context [mapM ?f l E ?s1] => destruct (IH s1) as (ys & s' & Hrun & Hkv)
  end.
  rewrite Hrun. by eexists _, _.
Qed.

Lemma seedDatabase_kv E s :
  kv (run E seedDatabase s).2 =
    if bool_decide (Kv.entries "report:" (kv s) = []) then
      foldl (λ m r, <[report_key (sample_id r) := r]> m) (kv s) sampleReports
    else kv s.
Proof.
  unfold seedDatabase; unfold_monad; unfold Kv.getByPrefix, Kv.scan.
  rewrite length_fmap.
  destruct (Kv.entries "report:" (kv s)) as [|e es] eqn:Hent.
  - rewrite !bool_decide_true by done.
    destruct (seed_sets_run E (emit (EvKvScan "report:") s) sampleReports)
      as (ys & s' & Hrun & Hkv).
    unfold run in Hrun. by rewrite Hrun.
  - by rewrite !bool_decide_false by done.
Qed.

Lemma entries_lookup p k v m :
  m !! k = Some v → String.prefix p k = true → Kv.entries p m ≠ [].
Proof.
  intros Hget Hpre Hnil.
  assert (In (k, v) (Kv.entries p m)) as Hin.
  { unfold Kv.entries. apply filter_In. split; [|done].
    by apply list_elem_of_In, elem_of_map_to_list. }
  by rewrite Hnil in Hin.
Qed.

(** X12.  Seeding writes only into a store that holds no report: then
    each of the sample reports is stored under the key of its id, and every
    other key is as before; a store that holds a report is left as it
    is. *)
Theorem seed_fills_only_an_empty_store E s :
  (Kv.entries "report:" (kv s) = [] →
   (∀ r, r ∈ sampleReports →
      kv (run E seedDatabase s).2 !! report_key (sample_id r) = Some r) ∧
   (∀ k, (∀ r, r ∈ sampleReports → k ≠ report_key (sample_id r)) →
      kv (run E seedDatabase s).2 !! k = kv s !! k)) ∧
  (Kv.entries "report:" (kv s) ≠ [] → kv (run E seedDatabase s).2 = kv s).
Proof.
  rewrite seedDatabase_kv. case_bool_decide as Hent; split; try done.
  intros _. split.
  - intros r Hr. unfold sampleReports in Hr.
    repeat (apply elem_of_cons in Hr as [->|Hr]);
      [..|by apply elem_of_nil in Hr];
      unfold sampleReports; simpl foldl;
      repeat (rewrite lookup_insert_ne by (cbv; discriminate));
      apply lookup_insert_eq.
  - intros k Hk. unfold sampleReports in *. simpl foldl.
    repeat (rewrite lookup_insert_ne; [|intros <-; eapply Hk; [|reflexivity]; set_solver]).
    done.
Qed.

Lemma seed_fills_only_an_empty_store_witness :
  kv (run demo_env seedDatabase empty_state).2 !! "report:1732179600000"
  = sampleReports !! 2%nat.
Proof.
  destruct (seed_fills_only_an_empty_store demo_env empty_state) as [Hfill _].
  destruct Hfill as [Hget _]; [vm_compute; reflexivity|].
  refine (Hget (sample "1732179600000" "Illegal Dumping"
      "Construction debris dumped in the park area. Environmental hazard."
      "environment" "Central Park, East Side"
      "https://images.unsplash.com/photo-1532996122724-e3c354a0b15b?w=800&q=80"
      "resolved" 1732179600000) _).
  unfold sampleReports. set_solver.
Defined.

(** X13.  Seeding is idempotent: a second seeding, at a later start of the
    service, leaves the store as the first one made it. *)
Theorem seed_is_idempotent E s :
  kv (run E seedDatabase (run E seedDatabase s).2).2 = kv (run E seedDatabase s).2.
Proof.
  rewrite (seedDatabase_kv E (run E seedDatabase s).2).
  case_bool_decide as Hent; [|done]. exfalso.
  rewrite seedDatabase_kv in Hent. case_bool_decide as Hent0.
  - revert Hent. apply (entries_lookup _ "report:1732784400000"
                          (sample "1732784400000" "Overflowing Trash Bins"
      "Public trash bins have not been emptied in several days."
      "public-services" "Downtown Shopping District"
      "https://images.unsplash.com/photo-1604187351574-c75ca79f5807?w=800&q=80"
      "pending" 1732784400000)); [|done].
    unfold sampleReports. simpl foldl. apply lookup_insert_eq.
  - done.
Qed.

(** *** The list and what is stored *)

Lemma prefix_report_key id : String.prefix "report:" (report_key id) = true.
Proof. unfold report_key. cbn. by destruct id. Qed.

Lemma unwrap_row_persisted w k v :
  persisted_ok v = true → unwrap_value (Kv.row w (k, v)) = v.
Proof.
  intros Hok. destruct (persisted_ok_object _ Hok) as [fs ->].
  apply persisted_ok_spec in Hok as (_ & _ & _ & _ & _ & _ & _ & Hval).
  unfold Kv.row, unwrap_value. destruct w; simpl in *; [done|].
  by destruct (Js.assoc "value" fs).
Qed.

Lemma reachable_rows_ok E s :
  reachable E s →
  Forall (λ r, persisted_ok (unwrap_value r) = true)
    (Kv.scan (scan_wrapped E) "report:" (kv s)).
Proof.
  intros Hreach. pose proof (reachable_store_ok E s Hreach) as Hok.
  unfold Kv.scan, Kv.entries. apply Forall_fmap, Forall_forall. intros [k v] Hin.
  apply list_elem_of_In, filter_In in Hin as [Hin _].
  apply list_elem_of_In, elem_of_map_to_list in Hin.
  specialize (Hok k v Hin). simpl in *. by rewrite unwrap_row_persisted.
Qed.

Lemma reachable_list_ok E s :
  reachable E s →
  ∃ l,
    run E get_reports s
      = (Ok (success_with "reports" (JArr l)), emit (EvKvScan "report:") s) ∧
    l ≡ₚ unwrap_value <$> Kv.scan (scan_wrapped E) "report:" (kv s) ∧
    Forall (λ r, persisted_ok r = true) l.
Proof.
  intros Hreach. eexists.
  split; [by apply get_reports_listable, reachable_listable|].
  split; [apply array_sort_perm|].
  rewrite array_sort_perm. apply Forall_fmap. by apply reachable_rows_ok.
Qed.

(** X14.  A report that was just created is in the answer of the list
    route: in any state the service can reach, after a create request with
    the required fields, the list contains the record that the create
    returned. *)
Theorem created_report_is_listed E s b :
  reachable E s → required_fields b = true →
  ∃ r s1 l,
    run E (post_report (Some b)) s = (Ok (success_with "report" r), s1) ∧
    (run E get_reports s1).1 = Ok (success_with "reports" (JArr l)) ∧
    r ∈ l.
Proof.
  intros Hreach Hreq.
  pose proof (reach_request E s (PostReport (Some b)) Hreach) as Hreach1.
  simpl in Hreach1. rewrite post_report_accepts in Hreach1 by done. simpl in Hreach1.
  destruct (reachable_list_ok E _ Hreach1) as (l & Hrun & Hperm & _).
  eexists _, _, l. split; [by apply post_report_accepts|].
  split; [by rewrite Hrun|].
  rewrite Hperm. unfold Kv.scan. rewrite <- list_fmap_compose.
  apply list_elem_of_fmap. eexists (_, _). split; last first.
  - apply list_elem_of_In. unfold Kv.entries. apply filter_In. split.
    + apply list_elem_of_In, elem_of_map_to_list. simpl. apply lookup_insert_eq.
    + apply prefix_report_key.
  - simpl. symmetry. apply unwrap_row_persisted. by apply created_report_ok.
Qed.

Lemma created_report_is_listed_witness :
  ∃ r s1 l,
    run demo_env (post_report (Some pothole)) seeded_state
      = (Ok (success_with "report" r), s1) ∧
    (run demo_env get_reports s1).1 = Ok (success_with "reports" (JArr l)) ∧
    r ∈ l.
Proof.
  apply (created_report_is_listed demo_env seeded_state pothole); [|reflexivity].
  apply (reach_seed demo_env empty_state), reach_init.
Defined.

(** *** The dashboard on the server's list *)

Lemma validReports_persisted l :
  Forall (λ r, persisted_ok r = true) l → validReports l = l.
Proof.
  induction 1 as [|r l Hr _ IH]; [done|].
  unfold validReports in *. simpl. rewrite IH.
  destruct (persisted_ok_object _ Hr) as [fs ->].
  apply persisted_ok_spec in Hr as (Hid & Ht & _).
  unfold truthy_field in *. simpl in *. by rewrite Hid, Ht.
Qed.

Lemma status_partition l :
  Forall (λ r, persisted_ok r = true) l →
  (length (List.filter (λ r, is_string (Js.prop r "status") "pending") l)
   + length (List.filter (λ r, is_string (Js.prop r "status") "in-progress") l)
   + length (List.filter (λ r, is_string (Js.prop r "status") "resolved") l)
   = length l)%nat.
Proof.
  induction 1 as [|r l Hr _ IH]; [done|].
  apply persisted_ok_spec in Hr as (_ & _ & _ & _ & _ & Hst & _).
  unfold includes in Hst.
  destruct (Js.prop r "status") as [[| | |st| |]|] eqn:Hs; try done.
  apply bool_decide_eq_true in Hst. unfold statuses in Hst.
  simpl. rewrite Hs.
  repeat (apply elem_of_cons in Hst as [->|Hst]); [..|by apply elem_of_nil in Hst];
    simpl; lia.
Qed.

(** X15.  On the list that the server answers in any state it can reach,
    the defensive filter of the admin dashboard drops nothing, and the
    three status counters of the dashboard add up to the number of
    reports. *)
Theorem dashboard_counts_cover_the_list E s :
  reachable E s →
  ∃ l,
    (run E get_reports s).1 = Ok (success_with "reports" (JArr l)) ∧
    validReports l = l ∧
    (pendingCount l + inProgressCount l + resolvedCount l = length l)%nat.
Proof.
  intros Hreach. destruct (reachable_list_ok E s Hreach) as (l & Hrun & _ & Hok).
  exists l. split; [by rewrite Hrun|].
  split; [by apply validReports_persisted|].
  unfold pendingCount, inProgressCount, resolvedCount, statusCount.
  rewrite validReports_persisted by done. by apply status_partition.
Qed.

Lemma dashboard_counts_cover_the_list_witness :
  ∃ l,
    (run demo_env get_reports seeded_state).1 = Ok (success_with "reports" (JArr l)) ∧
    validReports l = l ∧
    (pendingCount l + inProgressCount l + resolvedCount l = length l)%nat.
Proof.
  apply (dashboard_counts_cover_the_list demo_env seeded_state).
  apply (reach_seed demo_env empty_state), reach_init.
Defined.

(** *** The client's list of reports *)

(** X16.  When the API returns a report that carries the id that was
    updated, [handleStatusUpdate] keeps the length of the list and the id
    at every position, puts the returned report at every position that had
    this id, and leaves every other position as it was. *)
Theorem status_update_in_place id updated reports :
  Js.truthy updated = true → Js.prop updated "id" = Some (JStr id) → id ≠ "" →
  let reports' := handleStatusUpdate id (Some updated) reports in
  length reports' = length reports ∧
  (λ r, Js.prop r "id") <$> List.filter Js.truthy reports'
    = (λ r, Js.prop r "id") <$> List.filter Js.truthy reports ∧
  ∀ i r, reports !! i = Some r →
    reports' !! i =
      Some (if Js.truthy r && is_string (Js.prop r "id") id then updated else r).
Proof.
  intros Htr Hid Hne. cbv zeta. unfold handleStatusUpdate.
  rewrite Htr, Hid. simpl.
  apply String.eqb_neq in Hne. rewrite Hne. simpl.
  split; [by rewrite length_fmap|]. split.
  - induction reports as [|r reports IH]; [done|].
    rewrite fmap_cons. cbn [List.filter].
    destruct (Js.truthy r) eqn:Hr; cbn [andb].
    + destruct (is_string (Js.prop r "id") id) eqn:His.
      * rewrite Htr, !fmap_cons, IH, Hid. f_equal.
        unfold is_string in His.
        destruct (Js.prop r "id") as [[| | |i| |]|]; try done.
        by apply String.eqb_eq in His as ->.
      * by rewrite Hr, !fmap_cons, IH.
    + by rewrite Hr.
  - intros i r Hi. by rewrite list_lookup_fmap, Hi.
Qed.

Lemma status_update_in_place_witness :
  handleStatusUpdate "1000"
    (Some (JObj [("id", JStr "1000"); ("status", JStr "resolved")]))
    [JObj [("id", JStr "1001"); ("status", JStr "pending")]; JNull;
     JObj [("id", JStr "1000"); ("status", JStr "pending")]] !! 2%nat
  = Some (JObj [("id", JStr "1000"); ("status", JStr "resolved")]).
Proof.
  exact (proj2 (proj2 (status_update_in_place "1000"
                         (JObj [("id", JStr "1000"); ("status", JStr "resolved")])
                         [JObj [("id", JStr "1001"); ("status", JStr "pending")]; JNull;
                          JObj [("id", JStr "1000"); ("status", JStr "pending")]]
                         eq_refl eq_refl ltac:(discriminate)))
           2%nat (JObj [("id", JStr "1000"); ("status", JStr "pending")]) eq_refl).
Defined.

(** X17.  When the API returns nothing, or a report without an id,
    [handleStatusUpdate] leaves the list as it is. *)
Theorem status_update_ignores_invalid_answer id updated reports :
  Js.truthy_opt updated = false ∨ Js.truthy_opt (chain updated "id") = false →
  handleStatusUpdate id updated reports = reports.
Proof.
  unfold handleStatusUpdate, chain. destruct updated as [u|]; [|done].
  simpl. intros [->| ->]; [done|]. by rewrite orb_true_r.
Qed.

Lemma status_update_ignores_invalid_answer_witness :
  handleStatusUpdate "1000" (Some (JObj [("status", JStr "resolved")]))
    [JObj [("id", JStr "1000"); ("status", JStr "pending")]]
  = [JObj [("id", JStr "1000"); ("status", JStr "pending")]].
Proof.
  apply status_update_ignores_invalid_answer. right. reflexivity.
Defined.

(** *** The age of a report *)

Lemma pretty_N_go_not_just_now x s :
  (∀ t, s +:+ t ≠ "Just now") → ∀ t, pretty_N_go x s +:+ t ≠ "Just now".
Proof.
  revert s. induction (N.lt_wf_0 x) as [x _ IH]; intros s Hs t.
  assert (x = 0 ∨ 0 < x)%N as [->|Hx] by lia.
  - rewrite pretty_N_go_0. apply Hs.
  - rewrite pretty_N_go_step by done. apply IH; [by apply N.div_lt|].
    intros t'. simpl. unfold pretty_N_char. by repeat case_match.
Qed.

Lemma pretty_pos_not_just_now z t : 0 < z → pretty z +:+ t ≠ "Just now".
Proof.
  intros Hz. destruct z as [|p|p]; try lia.
  unfold pretty, pretty_Z, pretty, pretty_positive, pretty, pretty_N.
  case_decide as Hp; [done|].
  assert (0 < N.pos p)%N as Hpos by lia.
  rewrite pretty_N_go_step by done. apply pretty_N_go_not_just_now.
  intros t'. simpl. unfold pretty_N_char. by repeat case_match.
Qed.

(** X18.  [formatTimestamp] shows "Just now" exactly for a report that is
    less than a minute old, a report whose timestamp lies in the future
    included. *)
Theorem just_now_iff_under_a_minute now timestamp :
  formatTimestamp now timestamp = "Just now" ↔ now - timestamp < 60000.
Proof.
  unfold formatTimestamp. cbv zeta.
  change (1000 * 60 * 60 * 24) with 86400000.
  change (1000 * 60 * 60) with 3600000.
  change (1000 * 60) with 60000.
  set (diff := now - timestamp).
  split.
  - intros Hfmt. destruct (Z.lt_ge_cases diff 60000) as [|Hge]; [done|]. exfalso.
    assert (0 < diff / 60000) as Hmin by (apply Z.div_str_pos; lia).
    destruct (0 <? diff / 86400000) eqn:Hd.
    { apply Z.ltb_lt in Hd. by apply pretty_pos_not_just_now in Hfmt. }
    destruct (0 <? diff / 3600000) eqn:Hh.
    { apply Z.ltb_lt in Hh. by apply pretty_pos_not_just_now in Hfmt. }
    apply Z.ltb_lt in Hmin as Hm. rewrite Hm in Hfmt.
    by apply pretty_pos_not_just_now in Hfmt.
  - intros Hlt.
    assert (diff / 60000 ≤ 0) as Hm.
    { destruct (Z.le_gt_cases 0 diff).
      - rewrite Z.div_small by lia. lia.
      - apply Z.lt_le_incl, Z.div_lt_upper_bound; lia. }
    assert (diff / 3600000 ≤ 0) as Hh.
    { destruct (Z.le_gt_cases 0 diff).
      - rewrite Z.div_small by lia. lia.
      - apply Z.lt_le_incl, Z.div_lt_upper_bound; lia. }
    assert (diff / 86400000 ≤ 0) as Hd.
    { destruct (Z.le_gt_cases 0 diff).
      - rewrite Z.div_small by lia. lia.
      - apply Z.lt_le_incl, Z.div_lt_upper_bound; lia. }
    replace (0 <? diff / 86400000) with false by (symmetry; apply Z.ltb_ge; lia).
    replace (0 <? diff / 3600000) with false by (symmetry; apply Z.ltb_ge; lia).
    replace (0 <? diff / 60000) with false by (symmetry; apply Z.ltb_ge; lia).
    done.
Qed.

(** X19.  [formatTimestamp] counts in the largest unit that is not zero:
    a report that is at least a day old is shown in days, whatever the
    hours and minutes, with "day" for one day and "days" for more. *)
Theorem a_day_old_is_shown_in_days now timestamp :
  86400000 ≤ now - timestamp →
  let days := (now - timestamp) / 86400000 in
  1 ≤ days ∧
  formatTimestamp now timestamp
    = pretty days +:+ (if days =? 1 then " day ago" else " days ago").
Proof.
  intros Hge. cbv zeta. unfold formatTimestamp. cbv zeta.
  change (1000 * 60 * 60 * 24) with 86400000.
  set (days := (now - timestamp) / 86400000).
  assert (1 ≤ days) as Hd.
  { unfold days. apply Z.div_le_lower_bound; lia. }
  split; [done|].
  replace (0 <? days) with true by (symmetry; apply Z.ltb_lt; lia).
  unfold plural. destruct (days =? 1) eqn:H1.
  - apply Z.eqb_eq in H1. rewrite H1. reflexivity.
  - apply Z.eqb_neq in H1.
    replace (1 <? days) with true by (symmetry; apply Z.ltb_lt; lia).
    reflexivity.
Qed.

Lemma a_day_old_is_shown_in_days_witness :
  formatTimestamp 1732784400000 1732611600000 = "2 days ago".
Proof.
  exact (proj2 (a_day_old_is_shown_in_days 1732784400000 1732611600000
                  ltac:(vm_compute; discriminate))).
Defined.

(** *** Sessions *)

Lemma auth_login_accepts E s signIn payload email password data :
  Js.prop payload "email" = Some email → Js.prop payload "password" = Some password →
  Js.truthy email = true → Js.truthy password = true →
  signIn email password = Some data →
  is_string (chain (chain (Js.prop data "user") "user_metadata") "role") "admin" = true →
  ∃ r, run E (auth_login signIn (Some payload)) s = (Ok r, s) ∧ code r = 200 ∧
       chain (Js.prop (body r) "session") "access_token"
         = chain (Js.prop data "session") "access_token".
Proof.
  intros He Hp Hte Htp Hsign Hrole.
  unfold auth_login; unfold_monad; unfold req_json, ret.
  rewrite !read_not_null by (by eapply prop_Some_not_null). unfold ret.
  rewrite He, Hp, Hte, Htp. simpl. rewrite Hsign.
  destruct data as [| | | | |fs]; try done.
  simpl in *. rewrite Hrole. simpl.
  destruct (Js.assoc "user" fs) as [u|]; [|done].
  destruct u as [| | | | |ufs]; try done. simpl in *.
  eexists. split; [reflexivity|]. split; [done|].
  simpl. by destruct (Js.assoc "session" fs) as [ss|]; simpl;
    [destruct (Js.prop ss "access_token"), (Js.prop ss "refresh_token")|].
Qed.

(** X20.  The login route answers 200 only to an admin: a 200 means that
    the payload carried a non-empty email and password, that the identity
    provider accepted them, and that the role of the signed-in user is
    "admin"; and whenever that is so the answer is 200. *)
Theorem login_only_for_admins E s signIn b :
  ∃ r,
    run E (auth_login signIn b) s = (Ok r, s) ∧
    (code r = 200 ↔
     ∃ payload email password data,
       b = Some payload ∧
       Js.prop payload "email" = Some email ∧ Js.prop payload "password" = Some password ∧
       Js.truthy email = true ∧ Js.truthy password = true ∧
       signIn email password = Some data ∧
       is_string (chain (chain (Js.prop data "user") "user_metadata") "role") "admin"
         = true).
Proof.
  destruct b as [payload|]; last first.
  { eexists. split; [done|]. split; [done|]. by intros (? & ? & ? & ? & ? & _). }
  assert (payload = JNull ∨ payload ≠ JNull) as [->|Hnn]
    by (destruct payload; (by left) || (by right)).
  { eexists. split; [done|]. split; [done|].
    by intros (? & ? & ? & ? & [= <-] & ? & _). }
  destruct (Js.prop payload "email") as [email|] eqn:He; last first.
  { eexists. split.
    - unfold auth_login; unfold_monad; unfold req_json, ret.
      rewrite !read_not_null by done. unfold ret. by rewrite He.
    - split; [done|]. intros (? & ? & ? & ? & [= <-] & He' & _). congruence. }
  destruct (Js.prop payload "password") as [password|] eqn:Hp; last first.
  { eexists. split.
    - unfold auth_login; unfold_monad; unfold req_json, ret.
      rewrite !read_not_null by done. unfold ret. by rewrite He, Hp.
    - split; [done|]. intros (? & ? & ? & ? & [= <-] & _ & Hp' & _). congruence. }
  destruct (negb (Js.truthy email) || negb (Js.truthy password)) eqn:Htr.
  { eexists. split.
    - unfold auth_login; unfold_monad; unfold req_json, ret.
      rewrite !read_not_null by done. unfold ret. by rewrite He, Hp, Htr.
    - split; [done|].
      intros (? & ? & ? & ? & [= <-] & He' & Hp' & Hte & Htp & _).
      rewrite He in He'. rewrite Hp in Hp'. simplify_eq.
      by rewrite Hte, Htp in Htr. }
  apply orb_false_elim in Htr as [Hte Htp].
  apply negb_false_iff in Hte, Htp.
  destruct (signIn email password) as [data|] eqn:Hsign; last first.
  { eexists. split.
    - unfold auth_login; unfold_monad; unfold req_json, ret.
      rewrite !read_not_null by done. unfold ret.
      by rewrite He, Hp, Hte, Htp, Hsign.
    - split; [done|].
      intros (? & ? & ? & ? & [= <-] & He' & Hp' & _ & _ & Hs' & _).
      rewrite He in He'. rewrite Hp in Hp'. simplify_eq. }
  destruct (is_string (chain (chain (Js.prop data "user") "user_metadata") "role") "admin")
    eqn:Hrole.
  - destruct (auth_login_accepts E s signIn payload email password data)
      as (r & Hrun & Hcode & _); try done.
    exists r. split; [done|]. split; [|done]. intros _.
    by eexists payload, email, password, data.
  - assert (∃ r, run E (auth_login signIn (Some payload)) s = (Ok r, s) ∧ code r ≠ 200)
      as (r & Hrun & Hcode).
    { unfold auth_login; unfold_monad; unfold req_json, ret.
      rewrite !read_not_null by done. unfold ret.
      rewrite He, Hp, Hte, Htp, Hsign. simpl.
      destruct data; simpl in *; rewrite ?Hrole; by eexists. }
    exists r. split; [done|]. split; [done|].
    intros (? & ? & ? & ? & [= <-] & He' & Hp' & _ & _ & Hs' & Hr').
    rewrite He in He'. rewrite Hp in Hp'. simplify_eq. congruence.
Qed.

Lemma login_only_for_admins_witness :
  ∃ r,
    run demo_env
      (auth_login demo_signIn
         (Some (JObj [("email", JStr "admin@city.example"); ("password", JStr "s3cret")])))
      empty_state = (Ok r, empty_state) ∧
    code r = 200.
Proof.
  destruct (login_only_for_admins demo_env empty_state demo_signIn
              (Some (JObj [("email", JStr "admin@city.example");
                           ("password", JStr "s3cret")])))
    as (r & Hrun & Hcode).
  exists r. split; [exact Hrun|]. apply Hcode.
  eexists _, _, _, _. repeat split.
Defined.

(** X21.  The login route turns away a signed-in user who is not an admin
    with 403, and hands out no session: the answer has no session
    property. *)
Theorem login_refuses_other_roles E s signIn payload email password data :
  Js.prop payload "email" = Some email → Js.prop payload "password" = Some password →
  Js.truthy email = true → Js.truthy password = true →
  signIn email password = Some data → data ≠ JNull →
  is_string (chain (chain (Js.prop data "user") "user_metadata") "role") "admin" = false →
  run E (auth_login signIn (Some payload)) s
    = (Ok (failure "Access denied - Admin privileges required" 403), s) ∧
  Js.prop (body (failure "Access denied - Admin privileges required" 403)) "session" = None.
Proof.
  intros He Hp Hte Htp Hsign Hnn Hrole. split; [|done].
  unfold auth_login; unfold_monad; unfold req_json, ret.
  rewrite !read_not_null by (by eapply prop_Some_not_null). unfold ret.
  rewrite He, Hp, Hte, Htp. simpl. rewrite Hsign.
  rewrite read_not_null by done. unfold ret. by rewrite Hrole.
Qed.

Lemma login_refuses_other_roles_witness :
  run demo_env
    (auth_login demo_signIn
       (Some (JObj [("email", JStr "resident@city.example"); ("password", JStr "pw")])))
    empty_state
  = (Ok (failure "Access denied - Admin privileges required" 403), empty_state).
Proof.
  refine (proj1 (login_refuses_other_roles demo_env empty_state demo_signIn
                   (JObj [("email", JStr "resident@city.example"); ("password", JStr "pw")])
                   (JStr "resident@city.example") (JStr "pw") _ _ _ _ _ _ _ _));
    [reflexivity | reflexivity | reflexivity | reflexivity | reflexivity
     | discriminate | reflexivity].
Defined.

(** X22.  The verify route answers 200 exactly when the request carries a
    non-empty bearer token for which the identity provider answers, without
    an error, with a user; in every other case it answers 401, and without
    a token it does so without asking the provider.  Unlike the admin gate,
    it does not single out the public key. *)
Theorem verify_iff_token_resolves E s authorization :
  ∃ r s',
    run E (auth_verify authorization) s = (Ok r, s') ∧
    (code r = 200 ↔
     ∃ token user,
       bearer_token authorization = Some token ∧ token ≠ "" ∧
       idp_getUser E (tick s) token = Some user ∧ Js.truthy user = true) ∧
    (code r = 200 ∨ code r = 401) ∧
    (no_bearer authorization → r = failure "No token provided" 401 ∧ s' = s).
Proof.
  unfold auth_verify, no_bearer; unfold_monad.
  destruct (bearer_token authorization) as [t|] eqn:Hb; last first.
  { eexists _, _. split; [done|]. split; [|split; [by right|done]].
    split; [done|]. by intros (? & ? & ? & _). }
  destruct (String.eqb t "") eqn:Ht.
  { apply String.eqb_eq in Ht as ->.
    eexists _, _. split; [done|]. split; [|split; [by right|done]].
    split; [done|]. by intros (? & ? & [= <-] & ? & _). }
  apply String.eqb_neq in Ht. unfold auth_getUser.
  destruct (idp_getUser E (tick s) t) as [u|] eqn:Hu; last first.
  { eexists _, _. split; [done|]. split; [|split; [by right|]].
    - split; [done|]. intros (? & ? & [= <-] & _ & Hu' & _). congruence.
    - by intros [|[= ->]]. }
  destruct (Js.truthy u) eqn:Htr; simpl; last first.
  { eexists _, _. split; [done|]. split; [|split; [by right|]].
    - split; [done|]. intros (? & ? & [= <-] & _ & Hu' & Htr'). congruence.
    - by intros [|[= ->]]. }
  rewrite !read_not_null by (by destruct u). unfold ret.
  eexists _, _. split; [done|]. split; [|split; [by left|]].
  - split; [|done]. intros _. by exists t, u.
  - by intros [|[= ->]].
Qed.

Lemma null_row_or_none (rows : list json) :
  JNull ∈ rows ∨ Forall (λ r, r ≠ JNull) rows.
Proof.
  induction rows as [|r rows [IH|IH]]; [by right| |].
  - left. by right.
  - assert (r = JNull ∨ r ≠ JNull) as [->|Hnn]
      by (destruct r; (by left) || (by right)).
    + left. by left.
    + right. by constructor.
Qed.

Lemma get_reports_answer_length E s l :
  (run E get_reports s).1 = Ok (success_with "reports" (JArr l)) →
  length l = length (Kv.scan (scan_wrapped E) "report:" (kv s)).
Proof.
  destruct (null_row_or_none (Kv.scan (scan_wrapped E) "report:" (kv s))) as [Hnull|Hnn].
  { rewrite get_reports_null_row by done. simpl. by intros [=]. }
  unfold get_reports; unfold_monad; unfold Kv.getByPrefix.
  case_bool_decide as Hlen.
  { apply nil_length_inv in Hlen. rewrite Hlen. simpl. by intros [= <-]. }
  pose proof (mapM_unwrap E (emit (EvKvScan "report:") s) _ Hnn) as Hm.
  unfold run in Hm. rewrite Hm. unfold sort_reports.
  destruct (forallb _ _); simpl; [|done].
  intros [= <-]. by rewrite array_sort_length, length_fmap.
Qed.

(** X23.  In every state the health route answers 200, leaves the store
    as it is, and reports as [reports_count] the number of stored entries
    whose key starts with "report:"; whenever the list route answers with
    a list in the same state, that list has [reports_count] elements. *)
Theorem health_counts_the_listed_reports E s buckets iso :
  ∃ r s',
    run E (health buckets iso) s = (Ok r, s') ∧
    code r = 200 ∧ kv s' = kv s ∧
    chain (Js.prop (body r) "services") "reports_count"
      = Some (JNum (Z.of_nat (length (Kv.entries "report:" (kv s))))) ∧
    ∀ l, (run E get_reports s).1 = Ok (success_with "reports" (JArr l)) →
         length l = length (Kv.entries "report:" (kv s)).
Proof.
  eexists _, _. split; [reflexivity|].
  split; [done|]. split; [done|]. split.
  - simpl. unfold Kv.scan. by rewrite length_fmap.
  - intros l Hl. rewrite (get_reports_answer_length E s l Hl).
    unfold Kv.scan. by rewrite length_fmap.
Qed.

Lemma health_counts_the_listed_reports_witness :
  ∃ r s',
    run demo_env (health (Some [bucketName]) (λ _, "2024-11-26T09:00:00.000Z")) seeded_state
      = (Ok r, s') ∧
    chain (Js.prop (body r) "services") "reports_count" = Some (JNum 5).
Proof.
  destruct (health_counts_the_listed_reports demo_env seeded_state (Some [bucketName])
              (λ _, "2024-11-26T09:00:00.000Z"))
    as (r & s' & Hrun & _ & _ & Hcount & _).
  exists r, s'. split; [exact Hrun|]. rewrite Hcount. vm_compute. reflexivity.
Defined.

(** *** Reports and their keys *)

Lemma patch_status_handler_kv E s id b :
  kv (run E (patch_status_handler id b) s).2 = kv s ∨
  ∃ st r,
    kv s !! report_key id = Some r ∧ Js.truthy r = true ∧
    kv (run E (patch_status_handler id b) s).2
      = <[report_key id := JObj (Js.set_field "status" st (Js.spread r))]> (kv s).
Proof.
  destruct b as [b|]; [|by left].
  unfold patch_status_handler; unfold_monad; unfold req_json, ret.
  assert (b = JNull ∨ b ≠ JNull) as [->|Hnn]
    by (destruct b; (by left) || (by right)); [by left|].
  rewrite read_not_null by done. unfold ret.
  destruct (Js.prop b "status") as [st|]; [|by left].
  destruct (negb (Js.truthy st) || negb (includes statuses (Some st))); [by left|].
  unfold Kv.get.
  destruct (kv s !! report_key id) as [r|] eqn:Hget; [|by left].
  destruct (Js.truthy r) eqn:Hr; [|by left].
  right. by exists st, r.
Qed.

Lemma keyed_insert id v m :
  Js.prop v "id" = Some (JStr id) → keyed m → keyed (<[report_key id := v]> m).
Proof. intros Hid Hm. apply map_Forall_insert_2; [by exists id|done]. Qed.

Lemma post_report_kv E s b :
  kv (run E (post_report b) s).2 = kv s ∨
  ∃ v, b = Some v ∧ required_fields v = true.
Proof.
  destruct b as [v|]; [|by left].
  destruct (required_fields v) eqn:Hreq; [right; by exists v|]. left.
  assert (v = JNull ∨ v ≠ JNull) as [->|Hnn]
    by (destruct v; (by left) || (by right)); [done|].
  by rewrite post_report_refuses.
Qed.

Lemma handle_keyed E s r : keyed (kv s) → keyed (kv (run E (handle r) s).2).
Proof.
  intros Hs. destruct r as [|id|b|a id b|a id|f]; simpl.
  - by rewrite get_reports_kv.
  - by rewrite get_report_kv.
  - destruct (post_report_kv E s b) as [->|(v & -> & Hreq)]; [done|].
    rewrite post_report_accepts by done. simpl. by apply keyed_insert.
  - unfold patch_status. apply requireAdmin_kv; [done|].
    intros s0 Hs0.
    destruct (patch_status_handler_kv E s0 id b) as [->|(st & v & Hget & _ & ->)];
      [by rewrite Hs0|].
    rewrite Hs0 in *. destruct (Hs _ _ Hget) as (id' & Hid & Hkey).
    apply report_key_inj in Hkey as <-.
    apply keyed_insert; [|done].
    destruct v; try done. simpl in *. by rewrite assoc_set_field.
  - unfold delete_report. apply requireAdmin_kv; [done|].
    intros s0 Hs0.
    unfold delete_report_handler; unfold_monad; unfold Kv.get.
    destruct (Js.truthy_opt (kv s0 !! report_key id)); simpl; rewrite Hs0; [|done].
    by apply map_Forall_delete.
  - by rewrite post_upload_kv.
Qed.

Lemma seedDatabase_keyed E s : keyed (kv s) → keyed (kv (run E seedDatabase s).2).
Proof.
  intros Hs. rewrite seedDatabase_kv. case_bool_decide; [|done].
  unfold sampleReports. simpl foldl.
  repeat (apply map_Forall_insert_2; [by eexists|]). done.
Qed.

Lemma reachable_keyed E s : reachable E s → keyed (kv s).
Proof.
  induction 1 as [tr|s Hs IH|s r Hs IH].
  - apply map_Forall_empty.
  - by apply seedDatabase_keyed.
  - by apply handle_keyed.
Qed.

(** X24.  In any state the service can reach, every report of the list
    has a string id, and fetching that id returns this very report. *)
Theorem listed_reports_are_fetchable E s :
  reachable E s →
  ∃ l,
    (run E get_reports s).1 = Ok (success_with "reports" (JArr l)) ∧
    ∀ r, r ∈ l →
      ∃ id, Js.prop r "id" = Some (JStr id) ∧
            (run E (get_report id) s).1 = Ok (success_with "report" r).
Proof.
  intros Hreach. destruct (reachable_list_ok E s Hreach) as (l & Hrun & Hperm & _).
  exists l. split; [by rewrite Hrun|].
  intros r Hr. rewrite Hperm in Hr. unfold Kv.scan, Kv.entries in Hr.
  apply list_elem_of_fmap in Hr as (row & -> & Hrow).
  apply list_elem_of_fmap in Hrow as ([k v] & -> & Hin).
  apply list_elem_of_In, filter_In in Hin as [Hin _].
  apply list_elem_of_In, elem_of_map_to_list in Hin.
  pose proof (reachable_store_ok E s Hreach k v Hin) as Hok. simpl in Hok.
  destruct (reachable_keyed E s Hreach k v Hin) as (id & Hid & ->).
  rewrite unwrap_row_persisted by done.
  exists id. split; [done|].
  rewrite (get_report_found E s id v); [done|done|].
  by destruct (persisted_ok_object _ Hok) as [fs ->].
Qed.

Lemma listed_reports_are_fetchable_witness :
  ∃ l,
    (run demo_env get_reports seeded_state).1 = Ok (success_with "reports" (JArr l)) ∧
    length l = 5%nat.
Proof.
  destruct (listed_reports_are_fetchable demo_env seeded_state) as (l & Hrun & _).
  - apply (reach_seed demo_env empty_state), reach_init.
  - exists l. split; [exact Hrun|].
    assert (Ok (success_with "reports" (JArr l))
            = (run demo_env get_reports seeded_state).1) as Heq by done.
    vm_compute in Heq. by injection Heq as ->.
Defined.

Lemma NoDup_ids_of_keys (f : string * json → option json) (es : list (string * json)) :
  NoDup es.*1 →
  (∀ e, e ∈ es → ∃ id, f e = Some (JStr id) ∧ e.1 = report_key id) →
  NoDup (f <$> es).
Proof.
  induction es as [|e es IH]; intros Hnd Hkeys; [constructor|].
  rewrite fmap_cons in Hnd. apply NoDup_cons in Hnd as [Hk Hnd].
  rewrite fmap_cons. apply NoDup_cons. split.
  - intros Hin. apply list_elem_of_fmap in Hin as (e' & Heq & Hin').
    destruct (Hkeys e) as (id & Hid & Hkey); [by left|].
    destruct (Hkeys e') as (id' & Hid' & Hkey'); [by right|].
    rewrite Hid, Hid' in Heq. injection Heq as ->.
    apply Hk. rewrite Hkey, <- Hkey'. by apply list_elem_of_fmap_2.
  - apply IH; [done|]. intros e' He'. apply Hkeys. by right.
Qed.

Lemma NoDup_filter_fst (P : string * json → bool) (es : list (string * json)) :
  NoDup es.*1 → NoDup (List.filter P es).*1.
Proof.
  induction es as [|e es IH]; [done|].
  rewrite fmap_cons. intros [Hk Hnd]%NoDup_cons. simpl.
  destruct (P e); [|by apply IH].
  rewrite fmap_cons. apply NoDup_cons. split; [|by apply IH].
  intros Hin. apply Hk. apply list_elem_of_fmap in Hin as (e' & -> & Hin).
  apply list_elem_of_fmap_2. by apply list_elem_of_In, filter_In in Hin as [?%list_elem_of_In _].
Qed.

(** X25.  In any state the service can reach, no two reports of the list
    have the same id. *)
Theorem listed_ids_are_distinct E s :
  reachable E s →
  ∃ l,
    (run E get_reports s).1 = Ok (success_with "reports" (JArr l)) ∧
    NoDup ((λ r, Js.prop r "id") <$> l).
Proof.
  intros Hreach. destruct (reachable_list_ok E s Hreach) as (l & Hrun & Hperm & _).
  exists l. split; [by rewrite Hrun|].
  rewrite Hperm. unfold Kv.scan. rewrite <- !list_fmap_compose.
  apply NoDup_ids_of_keys.
  - apply NoDup_filter_fst, NoDup_fst_map_to_list.
  - intros [k v] Hin. unfold Kv.entries in Hin.
    apply list_elem_of_In, filter_In in Hin as [Hin _].
    apply list_elem_of_In, elem_of_map_to_list in Hin.
    pose proof (reachable_store_ok E s Hreach k v Hin) as Hok. simpl in Hok.
    destruct (reachable_keyed E s Hreach k v Hin) as (id & Hid & ->).
    exists id. split; [|done]. simpl. by rewrite unwrap_row_persisted.
Qed.

Lemma listed_ids_are_distinct_witness :
  ∃ l,
    (run demo_env get_reports seeded_state).1 = Ok (success_with "reports" (JArr l)) ∧
    NoDup ((λ r, Js.prop r "id") <$> l).
Proof.
  apply (listed_ids_are_distinct demo_env seeded_state).
  apply (reach_seed demo_env empty_state), reach_init.
Defined.

(** ** The invariant of the persisted reports *)

(** C6, as amended.  In every state reachable from the empty store, by
    seeding and by requests in any order, every persisted report has an id
    that is a non-empty string, under whose key it is stored; a title, a
    description, a location and a type that are truthy (present, and not
    [null], [false], [0] or the empty string; they need not be strings, and
    the type need not be one of the six categories); and a status among
    pending, in-progress and resolved. *)
Theorem persisted_reports_ok E s :
  reachable E s →
  ∀ k v, kv s !! k = Some v →
    (∃ id, Js.prop v "id" = Some (JStr id) ∧ id ≠ "" ∧ k = report_key id) ∧
    Js.truthy_opt (Js.prop v "title") = true ∧
    Js.truthy_opt (Js.prop v "description") = true ∧
    Js.truthy_opt (Js.prop v "location") = true ∧
    Js.truthy_opt (Js.prop v "type") = true ∧
    ∃ st, Js.prop v "status" = Some (JStr st) ∧ st ∈ statuses.
Proof.
  intros Hreach k v Hkv.
  pose proof (reachable_store_ok E s Hreach k v Hkv) as Hok. simpl in Hok.
  destruct (reachable_keyed E s Hreach k v Hkv) as (id & Hid & ->).
  apply persisted_ok_spec in Hok as (Hidt & ? & ? & ? & ? & Hst & _).
  split.
  - exists id. split; [done|]. split; [|done].
    unfold truthy_field in Hidt. rewrite Hid in Hidt. simpl in Hidt.
    intros ->. done.
  - repeat (split; [done|]).
    unfold includes in Hst. destruct (Js.prop v "status") as [[| | |st| |]|]; try done.
    exists st. split; [done|]. by apply bool_decide_eq_true in Hst.
Qed.

Lemma persisted_reports_ok_witness :
  ∃ v,
    kv (run demo_env (handle (PostReport (Some pothole))) seeded_state).2
      !! "report:1006" = Some v ∧
    Js.prop v "id" = Some (JStr "1006") ∧
    Js.truthy_opt (Js.prop v "title") = true ∧ Js.truthy_opt (Js.prop v "type") = true.
Proof.
  assert (reachable demo_env
            (run demo_env (handle (PostReport (Some pothole))) seeded_state).2) as Hreach.
  { apply reach_request. apply (reach_seed demo_env empty_state). apply reach_init. }
  assert (kv (run demo_env (handle (PostReport (Some pothole))) seeded_state).2
            !! "report:1006" = Some (created_report pothole 1006 1007)) as Hget.
  { vm_compute. reflexivity. }
  exists (created_report pothole 1006 1007). split; [exact Hget|].
  destruct (persisted_reports_ok demo_env _ Hreach _ _ Hget) as (_ & Ht & _ & _ & Hty & _).
  split; [reflexivity|]. split; [exact Ht | exact Hty].
Defined.

(** C6, as stated, fails: a create request whose type is "banana" is
    accepted, and the report it persists has a type that is none of the six
    categories. *)
Lemma odd_type_is_persisted :
  reachable demo_env
    (run demo_env (handle (PostReport (Some pothole_odd_type))) empty_state).2 ∧
  ∃ v,
    kv (run demo_env (handle (PostReport (Some pothole_odd_type))) empty_state).2
      !! "report:1000" = Some v ∧
    Js.prop v "type" = Some (JStr "banana") ∧
    includes report_types (Js.prop v "type") = false ∧
    persisted_valid v = false.
Proof.
  split; [apply reach_request, reach_init|].
  eexists. split; [vm_compute; reflexivity|].
  repeat split.
Qed.
